(** * ElegantRL agents: DQN family and TD3

    A shallow embedding of [elegantrl/agents/AgentDQN.py] and
    [elegantrl/agents/AgentTD3.py].

    Conventions of the embedding.
    - Tensor entries are exact rationals ([Q], compared with [==]); rounding,
      infinities and the not-a-number values of float32 arithmetic are not
      represented.  The only not-a-number that is represented is the one a
      scalar result can hold ([NaN] of [pyfloat]): the mean of an empty tensor
      and the sentinel [th.tensor(th.nan)] of TD3.
    - A tensor of shape [B, k] is the list of its [B] rows.  A tensor of shape
      [B] and a tensor of shape [B, 1] are both kept as the list of their [B]
      entries.
    - A multi-layer perceptron ([build_mlp], which is not part of the two
      files) is a function from an input row to an output row, applied to
      every row of a batch.
    - The reductions over a row ([max], [min], [argmax]) and [gather] are
      written for the shapes the modules produce (at least one action, at
      least one critic, indices inside the row); torch raises on a row of
      width zero and on an index outside the row, here the reduction of an
      empty row is [0] and an index outside the row reads [0].
    - [assert] statements are executed (the interpreter is not run with -O). *)

From Stdlib Require Import String.
From Stdlib Require Import List ZArith QArith Qminmax Qround Lia Lqa Bool.
Import ListNotations.
Local Open Scope Q_scope.

(** ** Python values and exceptions *)

Module Py.

Inductive exn :=
| AssertionError
| AttributeError (name : string)
| TypeError (msg : string)
| ZeroDivisionError
| IndexError.

Inductive res (A : Type) :=
| Ok (a : A)
| Raise (e : exn).
Arguments Ok {A} a.
Arguments Raise {A} e.

(** The objects a caller may pass as [update_t]. *)
Inductive obj :=
| Int (z : Z)
| Bool (b : bool)
| Float (q : Q)
| Str (s : string)
| NoneType.

(** [isinstance(v, int)]: [bool] is a subclass of [int]. *)
Definition isinstance_int (v : obj) : bool :=
  match v with
  | Int _ | Bool _ => true
  | _ => false
  end.

(** The integer an [int] (or [bool]) object stands for in arithmetic. *)
Definition int_value (v : obj) : Z :=
  match v with
  | Int z => z
  | Bool true => 1%Z
  | _ => 0%Z
  end.

(** [a % b] on integers: the sign of the result follows the divisor. *)
Definition mod_ (a b : Z) : res Z :=
  if (b =? 0)%Z then Raise ZeroDivisionError else Ok (a mod b)%Z.

(** A Python float as returned by [.item()]. *)
Inductive pyfloat :=
| Fin (q : Q)
| NaN.


(** [getattr(args, name, default)] on an attribute that may be absent. *)
Definition getattr {A} (attr : option A) (default : A) : A :=
  match attr with Some v => v | None => default end.

End Py.

Import Py.

(** ** Tensors *)

Definition tensor1 := list Q.
Definition tensor2 := list (list Q).

Fixpoint map2 {A B C : Type} (f : A -> B -> C) (xs : list A) (ys : list B) : list C :=
  match xs, ys with
  | x :: xs', y :: ys' => f x y :: map2 f xs' ys'
  | _, _ => []
  end.

Definition Qltb (a b : Q) : bool := negb (Qle_bool b a).

Definition t_sum (xs : list Q) : Q := fold_right Qplus 0 xs.

(** Mean of the entries of one row, as an entry of a tensor. *)
Definition mean_row (row : list Q) : Q := t_sum row / inject_Z (Z.of_nat (length row)).

(** [t.mean().item()]: the mean of all entries; not-a-number on no entry. *)
Definition mean_item (xs : list Q) : pyfloat :=
  match xs with
  | [] => NaN
  | _ :: _ => Fin (mean_row xs)
  end.

Definition max_row (row : list Q) : Q :=
  match row with
  | [] => 0
  | x :: xs => fold_left Qmax xs x
  end.

Definition min_row (row : list Q) : Q :=
  match row with
  | [] => 0
  | x :: xs => fold_left Qmin xs x
  end.

(** Index of the first maximal entry. *)
Fixpoint argmax_from (best : Q) (best_i i : nat) (xs : list Q) : nat :=
  match xs with
  | [] => best_i
  | x :: xs' =>
      if Qltb best x then argmax_from x i (S i) xs'
      else argmax_from best best_i (S i) xs'
  end.

Definition argmax_row (row : list Q) : nat :=
  match row with
  | [] => 0%nat
  | x :: xs => argmax_from x 0%nat 1%nat xs
  end.

(** [t.max(dim=1, keepdim=True)[0]], also after [.squeeze(1)]. *)
Definition max_dim1 (t : tensor2) : tensor1 := map max_row t.
(** [t.min(dim=1, keepdim=True)[0]]. *)
Definition min_dim1 (t : tensor2) : tensor1 := map min_row t.
(** [t.mean(dim=1, keepdim=True)]. *)
Definition mean_dim1 (t : tensor2) : tensor1 := map mean_row t.
(** [t.argmax(dim=1, keepdim=True)]. *)
Definition argmax_dim1 (t : tensor2) : list nat := map argmax_row t.

(** [th.min(a, b)]: entrywise minimum of two tensors of one shape. *)
Definition t2_min (a b : tensor2) : tensor2 := map2 (map2 Qmin) a b.

(** Entrywise operations on tensors of shape [B] (or [B, 1]). *)
Definition t1_add (a b : tensor1) : tensor1 := map2 Qplus a b.
Definition t1_mul (a b : tensor1) : tensor1 := map2 Qmult a b.
Definition t1_scale (a : tensor1) (c : Q) : tensor1 := map (fun x => x * c) a.

(** A [B, k] tensor combined with a [B, 1] tensor, broadcast along the row. *)
Definition t2_sub_col (t : tensor2) (c : tensor1) : tensor2 :=
  map2 (fun row x => map (fun v => v - x) row) t c.
Definition t2_add_col (t : tensor2) (c : tensor1) : tensor2 :=
  map2 (fun row x => map (fun v => v + x) row) t c.
Definition t2_mul_col (t : tensor2) (c : tensor1) : tensor2 :=
  map2 (fun row x => map (fun v => v * x) row) t c.

(** The [B] entries of a tensor of shape [B, 1] given by its rows. *)
Definition col (t : tensor2) : tensor1 := map (fun row => hd 0 row) t.

(** [x.long()]: truncation toward zero. *)
Definition long (x : Q) : Z := if Qle_bool 0 x then Qfloor x else Qceiling x.

(** [t.gather(1, index.long())]: entry [index[i][j]] of row [i]. *)
Definition gather (t : tensor2) (index : tensor2) : tensor2 :=
  map2 (fun row idx => map (fun a => nth (Z.to_nat (long a)) row 0) idx) t index.

(** [label.repeat(1, n)] on a [B, 1] tensor. *)
Definition repeat_cols (label : tensor1) (n : nat) : tensor2 :=
  map (fun x => repeat x n) label.

(** [t.shape[1]]. *)
Definition shape1 (t : tensor2) : nat :=
  match t with
  | [] => 0%nat
  | row :: _ => length row
  end.

(** [th.cat((a, b), dim=1)]. *)
Definition cat_dim1 (a b : tensor2) : tensor2 := map2 (@app Q) a b.

(** [x.clip(-1.0, 1.0)]. *)
Definition clip (x : Q) : Q := Qmin 1 (Qmax (-1) x).

(** The regression target [reward + undone * gamma * next_q]
    (Python reads it as [reward + ((undone * gamma) * next_q)]). *)
Definition td_target (reward undone : tensor1) (gamma : Q) (next_q : tensor1) : tensor1 :=
  t1_add reward (t1_mul (t1_scale undone gamma) next_q).

(** A multi-layer perceptron, as the function it computes on one row. *)
Definition Mlp := list Q -> list Q.

(** ** The parts of torch the agents call: random sources and two
    transcendental functions. *)

Class Torch := {
  Rng : Type;
  (** [th.rand(1)] *)
  rand : Rng -> Q * Rng;
  (** [th.randint(high, size=(n, 1))] *)
  randint : nat -> nat -> Rng -> list nat * Rng;
  randint_length : forall high n g, length (fst (randint high n g)) = n;
  (** [th.multinomial(a_prob, num_samples=1)]: one draw for each row *)
  multinomial : tensor2 -> Rng -> list nat * Rng;
  (** [Normal(avg, std).sample()] *)
  normal_sample : tensor2 -> Q -> Rng -> tensor2 * Rng;
  normal_sample_length : forall avg std g, length (fst (normal_sample avg std g)) = length avg;
  tanh : Q -> Q;
  (** [nn.Softmax(dim=1)] on one row *)
  soft_max : list Q -> list Q
}.

(** ** AgentDQN.py: the Q-value modules *)

Module QNetBase.

(** The attributes [QNetBase.__init__] sets, and [explore_rate]: the three
    [get_action] methods that take no [explore_rate] argument read it from
    the module, and no constructor sets it ([None] is an absent attribute). *)
Record t := {
  state_dim : nat;
  action_dim : nat;
  state_avg : list Q;
  state_std : list Q;
  explore_rate : option Q
}.

Definition init (state_dim action_dim : nat) : t :=
  {| state_dim := state_dim;
     action_dim := action_dim;
     state_avg := repeat 0 state_dim;
     state_std := repeat 1 state_dim;
     explore_rate := None |}.

(** [(state - self.state_avg) / self.state_std], the statistics broadcast
    over the rows of the batch. *)
Definition state_norm (self : t) (state : tensor2) : tensor2 :=
  map (fun row => map2 Qdiv (map2 Qminus row (state_avg self)) (state_std self)) state.

End QNetBase.

(** [build_mlp] and [layer_init_with_orthogonal] come from AgentBase.py,
    which is not among the files: a module constructor takes them as they
    are given. *)
Class MlpFactory := {
  build_mlp : list nat -> Mlp;
  layer_init_with_orthogonal : Mlp -> Q -> Mlp
}.

Module QNetwork.

Record t := {
  base : QNetBase.t;
  net : Mlp
}.

Definition init `{MlpFactory} (net_dims : list nat) (state_dim action_dim : nat) : t :=
  {| base := QNetBase.init state_dim action_dim;
     net := layer_init_with_orthogonal
              (build_mlp (state_dim :: net_dims ++ [action_dim])) (1 # 10) |}.

Definition forward (self : t) (state : tensor2) : tensor2 :=
  let state := QNetBase.state_norm (base self) state in
  let value := map (net self) state in
  value.

Definition get_action `{Torch} (self : t) (state : tensor2) (explore_rate : Q) (g : Rng)
  : list nat * Rng :=
  let state := QNetBase.state_norm (base self) state in
  let (u, g) := rand g in
  if Qltb explore_rate u then
    (argmax_dim1 (map (net self) state), g)
  else
    randint (QNetBase.action_dim (base self)) (length state) g.

End QNetwork.

Module QNetDuel.

Record t := {
  base : QNetBase.t;
  net_state : Mlp;
  net_adv : Mlp;
  net_val : Mlp
}.

Definition init `{MlpFactory} (net_dims : list nat) (state_dim action_dim : nat) : t :=
  {| base := QNetBase.init state_dim action_dim;
     net_state := build_mlp (state_dim :: net_dims);
     net_adv := layer_init_with_orthogonal (build_mlp [last net_dims 0%nat; 1%nat]) (1 # 10);
     net_val := layer_init_with_orthogonal (build_mlp [last net_dims 0%nat; action_dim]) (1 # 10) |}.

Definition forward (self : t) (state : tensor2) : tensor2 :=
  let state := QNetBase.state_norm (base self) state in
  let s_enc := map (net_state self) state in
  let q_val := map (net_val self) s_enc in
  let q_adv := col (map (net_adv self) s_enc) in
  let value := t2_add_col (t2_sub_col q_val (mean_dim1 q_val)) q_adv in
  value.

Definition get_action `{Torch} (self : t) (state : tensor2) (g : Rng)
  : res (list nat) * Rng :=
  let state := QNetBase.state_norm (base self) state in
  match QNetBase.explore_rate (base self) with
  | None => (Raise (AttributeError "explore_rate"), g)
  | Some explore_rate =>
      let (u, g) := rand g in
      if Qltb explore_rate u then
        let s_enc := map (net_state self) state in
        let q_val := map (net_val self) s_enc in
        (Ok (argmax_dim1 q_val), g)
      else
        let (action, g) := randint (QNetBase.action_dim (base self)) (length state) g in
        (Ok action, g)
  end.

End QNetDuel.

Module QNetTwin.

Record t := {
  base : QNetBase.t;
  net_state : Mlp;
  net_val1 : Mlp;
  net_val2 : Mlp
}.

Definition init `{MlpFactory} (dims : list nat) (state_dim action_dim : nat) : t :=
  {| base := QNetBase.init state_dim action_dim;
     net_state := build_mlp (state_dim :: dims);
     net_val1 := layer_init_with_orthogonal (build_mlp [last dims 0%nat; action_dim]) (1 # 10);
     net_val2 := layer_init_with_orthogonal (build_mlp [last dims 0%nat; action_dim]) (1 # 10) |}.

Definition forward (self : t) (state : tensor2) : tensor2 :=
  let state := QNetBase.state_norm (base self) state in
  let s_enc := map (net_state self) state in
  let q_val := map (net_val1 self) s_enc in
  q_val.

Definition get_q1_q2 (self : t) (state : tensor2) : tensor2 * tensor2 :=
  let state := QNetBase.state_norm (base self) state in
  let s_enc := map (net_state self) state in
  let q_val1 := map (net_val1 self) s_enc in
  let q_val2 := map (net_val2 self) s_enc in
  (q_val1, q_val2).

Definition get_action `{Torch} (self : t) (state : tensor2) (g : Rng)
  : res (list nat) * Rng :=
  let state := QNetBase.state_norm (base self) state in
  let s_enc := map (net_state self) state in
  let q_val := map (net_val1 self) s_enc in
  match QNetBase.explore_rate (base self) with
  | None => (Raise (AttributeError "explore_rate"), g)
  | Some explore_rate =>
      let (u, g) := rand g in
      if Qltb explore_rate u then
        (Ok (argmax_dim1 q_val), g)
      else
        let a_prob := map soft_max q_val in
        let (action, g) := multinomial a_prob g in
        (Ok action, g)
  end.

End QNetTwin.

Module QNetTwinDuel.

Record t := {
  base : QNetBase.t;
  net_state : Mlp;
  net_adv1 : Mlp;
  net_val1 : Mlp;
  net_adv2 : Mlp;
  net_val2 : Mlp
}.

Definition init `{MlpFactory} (dims : list nat) (state_dim action_dim : nat) : t :=
  {| base := QNetBase.init state_dim action_dim;
     net_state := build_mlp (state_dim :: dims);
     net_adv1 := layer_init_with_orthogonal (build_mlp [last dims 0%nat; 1%nat]) (1 # 10);
     net_val1 := layer_init_with_orthogonal (build_mlp [last dims 0%nat; action_dim]) (1 # 10);
     net_adv2 := layer_init_with_orthogonal (build_mlp [last dims 0%nat; 1%nat]) (1 # 10);
     net_val2 := layer_init_with_orthogonal (build_mlp [last dims 0%nat; action_dim]) (1 # 10) |}.

Definition forward (self : t) (state : tensor2) : tensor2 :=
  let state := QNetBase.state_norm (base self) state in
  let s_enc := map (net_state self) state in
  let q_val := map (net_val1 self) s_enc in
  let q_adv := col (map (net_adv1 self) s_enc) in
  let value := t2_add_col (t2_sub_col q_val (mean_dim1 q_val)) q_adv in
  value.

Definition get_q1_q2 (self : t) (state : tensor2) : tensor2 * tensor2 :=
  let state := QNetBase.state_norm (base self) state in
  let s_enc := map (net_state self) state in
  let q_val1 := map (net_val1 self) s_enc in
  let q_adv1 := col (map (net_adv1 self) s_enc) in
  let q_duel1 := t2_add_col (t2_sub_col q_val1 (mean_dim1 q_val1)) q_adv1 in
  let q_val2 := map (net_val2 self) s_enc in
  let q_adv2 := col (map (net_adv2 self) s_enc) in
  let q_duel2 := t2_add_col (t2_sub_col q_val2 (mean_dim1 q_val2)) q_adv2 in
  (q_duel1, q_duel2).

Definition get_action `{Torch} (self : t) (state : tensor2) (g : Rng)
  : res (list nat) * Rng :=
  let state := QNetBase.state_norm (base self) state in
  let s_enc := map (net_state self) state in
  let q_val := map (net_val1 self) s_enc in
  match QNetBase.explore_rate (base self) with
  | None => (Raise (AttributeError "explore_rate"), g)
  | Some explore_rate =>
      let (u, g) := rand g in
      if Qltb explore_rate u then
        (Ok (argmax_dim1 q_val), g)
      else
        let a_prob := map soft_max q_val in
        let (action, g) := multinomial a_prob g in
        (Ok action, g)
  end.

End QNetTwinDuel.

(** The module object an agent of the DQN family holds in [self.act] or
    [self.cri]; the methods of a Python object are looked up at the call. *)
Module QModule.

Inductive t :=
| Plain (m : QNetwork.t)
| Duel (m : QNetDuel.t)
| Twin (m : QNetTwin.t)
| TwinDuel (m : QNetTwinDuel.t).

(** The classes themselves, as stored in [act_class] and [cri_class]. *)
Inductive class := ClsQNetwork | ClsQNetDuel | ClsQNetTwin | ClsQNetTwinDuel.

Definition class_of (self : t) : class :=
  match self with
  | Plain _ => ClsQNetwork
  | Duel _ => ClsQNetDuel
  | Twin _ => ClsQNetTwin
  | TwinDuel _ => ClsQNetTwinDuel
  end.

(** [self(state)], which runs [forward]. *)
Definition call (self : t) (state : tensor2) : tensor2 :=
  match self with
  | Plain m => QNetwork.forward m state
  | Duel m => QNetDuel.forward m state
  | Twin m => QNetTwin.forward m state
  | TwinDuel m => QNetTwinDuel.forward m state
  end.

(** [self.get_q1_q2(state)]: only the two twin classes define it. *)
Definition get_q1_q2 (self : t) (state : tensor2) : res (tensor2 * tensor2) :=
  match self with
  | Twin m => Ok (QNetTwin.get_q1_q2 m state)
  | TwinDuel m => Ok (QNetTwinDuel.get_q1_q2 m state)
  | Plain _ | Duel _ => Raise (AttributeError "get_q1_q2")
  end.

(** [self.get_action(state, explore_rate=explore_rate)]: only
    [QNetwork.get_action] has a parameter of that name. *)
Definition get_action_kw `{Torch} (self : t) (state : tensor2) (explore_rate : Q) (g : Rng)
  : res (list nat) * Rng :=
  match self with
  | Plain m =>
      let (action, g) := QNetwork.get_action m state explore_rate g in
      (Ok action, g)
  | Duel _ | Twin _ | TwinDuel _ =>
      (Raise (TypeError "get_action() got an unexpected keyword argument 'explore_rate'"), g)
  end.

(** [self.get_action(state)]. *)
Definition get_action `{Torch} (self : t) (state : tensor2) (g : Rng)
  : res (list nat) * Rng :=
  match self with
  | Plain _ =>
      (Raise (TypeError "get_action() missing 1 required positional argument: 'explore_rate'"), g)
  | Duel m => QNetDuel.get_action m state g
  | Twin m => QNetTwin.get_action m state g
  | TwinDuel m => QNetTwinDuel.get_action m state g
  end.

End QModule.

(** ** The collaborators: replay buffer, configuration, agent base class *)

Module Batch.

Record t := {
  state : tensor2;
  action : tensor2;
  reward : tensor1;
  undone : tensor1;
  unmask : tensor1;
  next_state : tensor2
}.

(** All fields share the leading dimension. *)
Definition wf (n : nat) (b : t) : Prop :=
  length (state b) = n /\ length (action b) = n /\ length (reward b) = n /\
  length (undone b) = n /\ length (unmask b) = n /\ length (next_state b) = n.

End Batch.

Module PerBatch.

Record t := {
  batch : Batch.t;
  is_weight : tensor1;
  is_index : list Z
}.

Definition wf (n : nat) (b : t) : Prop :=
  Batch.wf n (batch b) /\ length (is_weight b) = n /\ length (is_index b) = n.

End PerBatch.

(** [ReplayBuffer] (train/replay_buffer.py, not among the files): the three
    calls the agents make.  Sampling may change the buffer (its random
    source); the returned tensors share the leading dimension [batch_size]. *)
Class ReplayBuffer := {
  Buffer : Type;
  sample : Buffer -> nat -> Batch.t * Buffer;
  sample_for_per : Buffer -> nat -> PerBatch.t * Buffer;
  td_error_update_for_per : Buffer -> list Z -> tensor1 -> Buffer;
  sample_wf : forall b n, Batch.wf n (fst (sample b n));
  sample_for_per_wf : forall b n, PerBatch.wf n (fst (sample_for_per b n))
}.

Module Config.

(** The options the two files read with [getattr(args, name, default)]. *)
Record t := {
  explore_rate : option Q;
  update_freq : option Z;
  num_ensembles : option nat;
  policy_noise_std : option Q;
  explore_noise_std : option Q
}.

End Config.

Module AgentBase.

(** The attributes [AgentBase.__init__] (AgentBase.py, not among the files)
    leaves on the agent and the two files read.  [criterion] is an
    entrywise loss ([reduction="none"]). *)
Record t := {
  gamma : Q;
  learning_rate : Q;
  soft_update_tau : Q;
  criterion : Q -> Q -> Q
}.

End AgentBase.

(** The optimizer and the two methods of [AgentBase] that change parameters.
    [optimizer_backward optimizer module objective] is one gradient step on
    the parameters of [module], the objective given as a function of them;
    [soft_update target current tau] returns the new target. *)
Class Training := {
  Optimizer : Type;
  Adam : Q -> Optimizer;
  optimizer_backward : forall {M : Type}, Optimizer -> M -> (M -> pyfloat) -> Optimizer * M;
  soft_update : forall {M : Type}, M -> M -> Q -> M
}.

Definition neg (x : pyfloat) : pyfloat :=
  match x with
  | Fin q => Fin (- q)
  | NaN => NaN
  end.

(** ** AgentDQN.py: the agents *)

Module AgentDQN.

Section WithCollaborators.
Context `{Torch} `{MlpFactory} `{Training} `{ReplayBuffer}.

(** [self.act] and [self.cri] are one object, [self.act_target] and
    [self.cri_target] are one object, and so are the two optimizers: each
    pair is one field.  [act_class] and [cri_class] are the attributes the
    subclasses set before they call this class's constructor. *)
Record t := {
  base : AgentBase.t;
  act_class : option QModule.class;
  cri_class : option (option QModule.class);
  cri : QModule.t;
  cri_target : QModule.t;
  cri_optimizer : Optimizer;
  explore_rate : Q
}.

Definition act (self : t) : QModule.t := cri self.
Definition act_target (self : t) : QModule.t := cri_target self.
Definition act_optimizer (self : t) : Optimizer := cri_optimizer self.

(** [__init__]; [base] is what [AgentBase.__init__] has set.  The module is
    a [QNetwork], whatever [act_class] holds. *)
Definition init (act_class : option QModule.class) (cri_class : option (option QModule.class))
    (base : AgentBase.t) (net_dims : list nat) (state_dim action_dim : nat) (args : Config.t) : t :=
  let act := QModule.Plain (QNetwork.init net_dims state_dim action_dim) in
  {| base := base;
     act_class := act_class;
     cri_class := cri_class;
     cri := act;
     cri_target := act;
     cri_optimizer := Adam (AgentBase.learning_rate base);
     explore_rate := getattr (Config.explore_rate args) (1 # 4) |}.

(** [x[0, 0]] on the [1, 1] tensor of actions. *)
Definition _explore_one_action (self : t) (state : list Q) (g : Rng) : res nat * Rng :=
  match QModule.get_action_kw (act self) [state] (explore_rate self) g with
  | (Ok (a :: _), g) => (Ok a, g)
  | (Ok [], g) => (Raise IndexError, g)
  | (Raise e, g) => (Raise e, g)
  end.

(** [x[:, 0]]. *)
Definition _explore_vec_action (self : t) (state : tensor2) (g : Rng) : res (list nat) * Rng :=
  QModule.get_action_kw (act self) state (explore_rate self) g.

(** The block under [th.no_grad()], after the batch is sampled. *)
Definition next_q (self : t) (batch : Batch.t) : tensor1 :=
  max_dim1 (QModule.call (cri_target self) (Batch.next_state batch)).

Definition q_label (self : t) (batch : Batch.t) : tensor1 :=
  td_target (Batch.reward batch) (Batch.undone batch) (AgentBase.gamma (base self))
            (next_q self batch).

(** [self.cri(state).gather(1, action.long()).squeeze(1)]. *)
Definition q_value (cri : QModule.t) (batch : Batch.t) : tensor1 :=
  col (gather (QModule.call cri (Batch.state batch)) (Batch.action batch)).

(** [self.criterion(q_value, q_label) * unmask]. *)
Definition td_error (self : t) (cri : QModule.t) (batch : Batch.t) (q_label : tensor1) : tensor1 :=
  t1_mul (map2 (AgentBase.criterion (base self)) (q_value cri batch) q_label)
         (Batch.unmask batch).

Definition _update_objectives_raw (self : t) (buffer : Buffer) (batch_size : nat) (update_t : obj)
  : res (pyfloat * pyfloat) * (t * Buffer) :=
  if isinstance_int update_t then
    let (batch, buffer) := sample buffer batch_size in
    let q_label := q_label self batch in
    let q_value := q_value (cri self) batch in
    let obj_critic := fun cri => mean_item (td_error self cri batch q_label) in
    let (optimizer, cri') := optimizer_backward (cri_optimizer self) (cri self) obj_critic in
    let target := soft_update (cri_target self) cri' (AgentBase.soft_update_tau (base self)) in
    let obj_actor := mean_item q_value in
    (Ok (obj_critic (cri self), obj_actor),
     ({| base := base self; act_class := act_class self; cri_class := cri_class self;
         cri := cri'; cri_target := target; cri_optimizer := optimizer;
         explore_rate := explore_rate self |}, buffer))
  else (Raise AssertionError, (self, buffer)).

Definition _update_objectives_per (self : t) (buffer : Buffer) (batch_size : nat) (update_t : obj)
  : res (pyfloat * pyfloat) * (t * Buffer) :=
  if isinstance_int update_t then
    let (per, buffer) := sample_for_per buffer batch_size in
    let batch := PerBatch.batch per in
    let q_label := q_label self batch in
    let q_value := q_value (cri self) batch in
    let obj_critic := fun cri =>
      mean_item (t1_mul (td_error self cri batch q_label) (PerBatch.is_weight per)) in
    let (optimizer, cri') := optimizer_backward (cri_optimizer self) (cri self) obj_critic in
    let target := soft_update (cri_target self) cri' (AgentBase.soft_update_tau (base self)) in
    let buffer := td_error_update_for_per buffer (PerBatch.is_index per)
                    (td_error self (cri self) batch q_label) in
    let obj_actor := mean_item q_value in
    (Ok (obj_critic (cri self), obj_actor),
     ({| base := base self; act_class := act_class self; cri_class := cri_class self;
         cri := cri'; cri_target := target; cri_optimizer := optimizer;
         explore_rate := explore_rate self |}, buffer))
  else (Raise AssertionError, (self, buffer)).

End WithCollaborators.

End AgentDQN.

Module AgentDoubleDQN.

Section WithCollaborators.
Context `{Torch} `{MlpFactory} `{Training} `{ReplayBuffer}.

(** [__init__]: the two arguments are the attributes a subclass has set
    on [self] before ([None] when it has not). *)
Definition init (act_class : option QModule.class) (cri_class : option (option QModule.class))
    (base : AgentBase.t) (net_dims : list nat) (state_dim action_dim : nat) (args : Config.t)
  : AgentDQN.t :=
  let act_class := getattr act_class QModule.ClsQNetTwin in
  let cri_class := getattr cri_class None in
  AgentDQN.init (Some act_class) (Some cri_class) base net_dims state_dim action_dim args.

(** [th.min] of the two tensors of [self.cri_target.get_q1_q2(next_state)], then
    [.max(dim=1, keepdim=True)[0].squeeze(1)]. *)
Definition next_q (self : AgentDQN.t) (batch : Batch.t) : res tensor1 :=
  match QModule.get_q1_q2 (AgentDQN.cri_target self) (Batch.next_state batch) with
  | Ok (q1, q2) => Ok (max_dim1 (t2_min q1 q2))
  | Raise e => Raise e
  end.

Definition q_label (self : AgentDQN.t) (batch : Batch.t) : res tensor1 :=
  match next_q self batch with
  | Ok next_q =>
      Ok (td_target (Batch.reward batch) (Batch.undone batch)
                    (AgentBase.gamma (AgentDQN.base self)) next_q)
  | Raise e => Raise e
  end.

(** [[qs.gather(1, action.long()).squeeze(1) for qs in self.act.get_q1_q2(state)]] *)
Definition q_values (act : QModule.t) (batch : Batch.t) : res (tensor1 * tensor1) :=
  match QModule.get_q1_q2 act (Batch.state batch) with
  | Ok (qs1, qs2) =>
      Ok (col (gather qs1 (Batch.action batch)), col (gather qs2 (Batch.action batch)))
  | Raise e => Raise e
  end.

(** [(self.criterion(q_value1, q_label) + self.criterion(q_value2, q_label)) * unmask] *)
Definition td_error (self : AgentDQN.t) (q_value1 q_value2 : tensor1) (batch : Batch.t)
    (q_label : tensor1) : tensor1 :=
  let criterion := AgentBase.criterion (AgentDQN.base self) in
  t1_mul (t1_add (map2 criterion q_value1 q_label) (map2 criterion q_value2 q_label))
         (Batch.unmask batch).

(** The two objectives as functions of the trained module, for the
    optimizer; the class of a module does not change under training. *)
Definition objective_raw (self : AgentDQN.t) (batch : Batch.t) (q_label : tensor1)
    (act : QModule.t) : pyfloat :=
  match q_values act batch with
  | Ok (q_value1, q_value2) => mean_item (td_error self q_value1 q_value2 batch q_label)
  | Raise _ => NaN
  end.

Definition objective_per (self : AgentDQN.t) (batch : Batch.t) (q_label weight : tensor1)
    (act : QModule.t) : pyfloat :=
  match q_values act batch with
  | Ok (q_value1, q_value2) =>
      mean_item (t1_mul (td_error self q_value1 q_value2 batch q_label) weight)
  | Raise _ => NaN
  end.

Definition _update_objectives_raw (self : AgentDQN.t) (buffer : Buffer) (batch_size : nat)
    (update_t : obj) : res (pyfloat * pyfloat) * (AgentDQN.t * Buffer) :=
  if isinstance_int update_t then
    let (batch, buffer) := sample buffer batch_size in
    match q_label self batch with
    | Raise e => (Raise e, (self, buffer))
    | Ok q_label =>
        match q_values (AgentDQN.act self) batch with
        | Raise e => (Raise e, (self, buffer))
        | Ok (q_value1, q_value2) =>
            let obj_critic := mean_item (td_error self q_value1 q_value2 batch q_label) in
            let (optimizer, cri') :=
              optimizer_backward (AgentDQN.cri_optimizer self) (AgentDQN.cri self)
                (objective_raw self batch q_label) in
            let target := soft_update (AgentDQN.cri_target self) cri'
                            (AgentBase.soft_update_tau (AgentDQN.base self)) in
            let obj_actor := mean_item q_value1 in
            (Ok (obj_critic, obj_actor),
             ({| AgentDQN.base := AgentDQN.base self;
                 AgentDQN.act_class := AgentDQN.act_class self;
                 AgentDQN.cri_class := AgentDQN.cri_class self;
                 AgentDQN.cri := cri';
                 AgentDQN.cri_target := target;
                 AgentDQN.cri_optimizer := optimizer;
                 AgentDQN.explore_rate := AgentDQN.explore_rate self |}, buffer))
        end
    end
  else (Raise AssertionError, (self, buffer)).

Definition _update_objectives_per (self : AgentDQN.t) (buffer : Buffer) (batch_size : nat)
    (update_t : obj) : res (pyfloat * pyfloat) * (AgentDQN.t * Buffer) :=
  if isinstance_int update_t then
    let (per, buffer) := sample_for_per buffer batch_size in
    let batch := PerBatch.batch per in
    match q_label self batch with
    | Raise e => (Raise e, (self, buffer))
    | Ok q_label =>
        match q_values (AgentDQN.act self) batch with
        | Raise e => (Raise e, (self, buffer))
        | Ok (q_value1, q_value2) =>
            let td_error := td_error self q_value1 q_value2 batch q_label in
            let obj_critic := mean_item (t1_mul td_error (PerBatch.is_weight per)) in
            let (optimizer, cri') :=
              optimizer_backward (AgentDQN.cri_optimizer self) (AgentDQN.cri self)
                (objective_per self batch q_label (PerBatch.is_weight per)) in
            let target := soft_update (AgentDQN.cri_target self) cri'
                            (AgentBase.soft_update_tau (AgentDQN.base self)) in
            let buffer := td_error_update_for_per buffer (PerBatch.is_index per) td_error in
            let obj_actor := mean_item q_value1 in
            (Ok (obj_critic, obj_actor),
             ({| AgentDQN.base := AgentDQN.base self;
                 AgentDQN.act_class := AgentDQN.act_class self;
                 AgentDQN.cri_class := AgentDQN.cri_class self;
                 AgentDQN.cri := cri';
                 AgentDQN.cri_target := target;
                 AgentDQN.cri_optimizer := optimizer;
                 AgentDQN.explore_rate := AgentDQN.explore_rate self |}, buffer))
        end
    end
  else (Raise AssertionError, (self, buffer)).

End WithCollaborators.

End AgentDoubleDQN.

(** [AgentDuelingDQN] overrides the constructor only: its update methods and
    exploration helpers are those of [AgentDQN]. *)
Module AgentDuelingDQN.

Section WithCollaborators.
Context `{Torch} `{MlpFactory} `{Training} `{ReplayBuffer}.

Definition init (act_class : option QModule.class) (cri_class : option (option QModule.class))
    (base : AgentBase.t) (net_dims : list nat) (state_dim action_dim : nat) (args : Config.t)
  : AgentDQN.t :=
  let act_class := getattr act_class QModule.ClsQNetDuel in
  let cri_class := getattr cri_class None in
  AgentDQN.init (Some act_class) (Some cri_class) base net_dims state_dim action_dim args.

End WithCollaborators.

End AgentDuelingDQN.

(** [AgentD3QN] overrides the constructor only: its update methods are those
    of [AgentDoubleDQN], its exploration helpers those of [AgentDQN]. *)
Module AgentD3QN.

Section WithCollaborators.
Context `{Torch} `{MlpFactory} `{Training} `{ReplayBuffer}.

Definition init (act_class : option QModule.class) (cri_class : option (option QModule.class))
    (base : AgentBase.t) (net_dims : list nat) (state_dim action_dim : nat) (args : Config.t)
  : AgentDQN.t :=
  let act_class := getattr act_class QModule.ClsQNetTwinDuel in
  let cri_class := getattr cri_class None in
  AgentDoubleDQN.init (Some act_class) (Some cri_class) base net_dims state_dim action_dim args.

End WithCollaborators.

End AgentD3QN.

(** ** AgentTD3.py *)

(** Modelled from the spec: [ActorBase] and [CriticBase] (AgentBase.py, not
    among the files), the base classes of [Actor] and [CriticTwin].  What
    the two files use of them is the normalization of the state, which the
    spec gives as "(x - avg) / std using fixed per-feature statistics stored
    with the module", as [QNetBase] has it. *)
Module ModuleBase.

Record t := {
  state_dim : nat;
  action_dim : nat;
  state_avg : list Q;
  state_std : list Q
}.

Definition init (state_dim action_dim : nat) : t :=
  {| state_dim := state_dim;
     action_dim := action_dim;
     state_avg := repeat 0 state_dim;
     state_std := repeat 1 state_dim |}.

Definition state_norm (self : t) (state : tensor2) : tensor2 :=
  map (fun row => map2 Qdiv (map2 Qminus row (state_avg self)) (state_std self)) state.

End ModuleBase.

Module Actor.

Record t := {
  base : ModuleBase.t;
  net : Mlp;
  explore_noise_std : Q
}.

Definition init `{MlpFactory} (net_dims : list nat) (state_dim action_dim : nat) : t :=
  {| base := ModuleBase.init state_dim action_dim;
     net := layer_init_with_orthogonal
              (build_mlp (state_dim :: net_dims ++ [action_dim])) (1 # 10);
     explore_noise_std := 1 # 100 |}.

Definition forward `{Torch} (self : t) (state : tensor2) : tensor2 :=
  let state := ModuleBase.state_norm (base self) state in
  let action := map (net self) state in
  map (map tanh) action.

Definition get_action `{Torch} (self : t) (state : tensor2) (action_std : Q) (g : Rng)
  : tensor2 * Rng :=
  let state := ModuleBase.state_norm (base self) state in
  let action_avg := map (map tanh) (map (net self) state) in
  let (action, g) := normal_sample action_avg action_std g in
  (map (map clip) action, g).

End Actor.

Module CriticTwin.

Record t := {
  base : ModuleBase.t;
  net : Mlp
}.

Definition init `{MlpFactory} (net_dims : list nat) (state_dim action_dim num_ensembles : nat) : t :=
  {| base := ModuleBase.init state_dim action_dim;
     net := layer_init_with_orthogonal
              (build_mlp ((state_dim + action_dim)%nat :: net_dims ++ [num_ensembles])) (1 # 2) |}.

Definition get_q_values (self : t) (state action : tensor2) : tensor2 :=
  let state := ModuleBase.state_norm (base self) state in
  let values := map (net self) (cat_dim1 state action) in
  values.

Definition forward (self : t) (state action : tensor2) : tensor1 :=
  let state := ModuleBase.state_norm (base self) state in
  let values := get_q_values self state action in
  let value := mean_dim1 values in
  value.

End CriticTwin.

Module AgentTD3.

Section WithCollaborators.
Context `{Torch} `{MlpFactory} `{Training} `{ReplayBuffer}.

Record t := {
  base : AgentBase.t;
  update_freq : Z;
  num_ensembles : nat;
  policy_noise_std : Q;
  explore_noise_std : Q;
  act : Actor.t;
  cri : CriticTwin.t;
  act_target : Actor.t;
  cri_target : CriticTwin.t;
  act_optimizer : Optimizer;
  cri_optimizer : Optimizer
}.

Definition init (base : AgentBase.t) (net_dims : list nat) (state_dim action_dim : nat)
    (args : Config.t) : t :=
  let num_ensembles := getattr (Config.num_ensembles args) 8%nat in
  let act := Actor.init net_dims state_dim action_dim in
  let cri := CriticTwin.init net_dims state_dim action_dim num_ensembles in
  {| base := base;
     update_freq := getattr (Config.update_freq args) 2%Z;
     num_ensembles := num_ensembles;
     policy_noise_std := getattr (Config.policy_noise_std args) (1 # 10);
     explore_noise_std := getattr (Config.explore_noise_std args) (1 # 20);
     act := act;
     cri := cri;
     act_target := act;
     cri_target := cri;
     act_optimizer := Adam (AgentBase.learning_rate base);
     cri_optimizer := Adam (AgentBase.learning_rate base) |}.

(** The block under [th.no_grad()], after the batch is sampled;
    [next_action] has been drawn with [self.act.get_action]. *)
Definition next_q (self : t) (batch : Batch.t) (next_action : tensor2) : tensor1 :=
  min_dim1 (CriticTwin.get_q_values (cri_target self) (Batch.next_state batch) next_action).

Definition q_label (self : t) (batch : Batch.t) (next_action : tensor2) : tensor1 :=
  td_target (Batch.reward batch) (Batch.undone batch) (AgentBase.gamma (base self))
            (next_q self batch next_action).

(** [self.criterion(q_values, q_labels)], one loss for each sample and critic. *)
Definition losses (self : t) (cri : CriticTwin.t) (batch : Batch.t) (q_label : tensor1) : tensor2 :=
  let q_values := CriticTwin.get_q_values cri (Batch.state batch) (Batch.action batch) in
  let q_labels := repeat_cols q_label (shape1 q_values) in
  map2 (map2 (AgentBase.criterion (base self))) q_values q_labels.

(** [(self.criterion(q_values, q_labels) * unmask).mean()] *)
Definition obj_critic_raw (self : t) (batch : Batch.t) (q_label : tensor1) (cri : CriticTwin.t)
  : pyfloat :=
  mean_item (concat (t2_mul_col (losses self cri batch q_label) (Batch.unmask batch))).

(** [self.criterion(q_values, q_labels).mean(dim=-1, keepdim=True) * unmask] *)
Definition td_error (self : t) (cri : CriticTwin.t) (batch : Batch.t) (q_label : tensor1) : tensor1 :=
  t1_mul (mean_dim1 (losses self cri batch q_label)) (Batch.unmask batch).

(** [(td_error * is_weight).mean()] *)
Definition obj_critic_per (self : t) (batch : Batch.t) (q_label weight : tensor1)
    (cri : CriticTwin.t) : pyfloat :=
  mean_item (t1_mul (td_error self cri batch q_label) weight).

(** [self.cri(state, self.act(state)).mean()] *)
Definition obj_actor (cri : CriticTwin.t) (batch : Batch.t) (act : Actor.t) : pyfloat :=
  let action_pg := Actor.forward act (Batch.state batch) in
  mean_item (CriticTwin.forward cri (Batch.state batch) action_pg).

(** The statements from [if update_t % self.update_freq == 0] on; [self]
    already holds the updated critic. *)
Definition delayed_actor_update (self : t) (batch : Batch.t) (update_t : obj)
  : res pyfloat * t :=
  match mod_ (int_value update_t) (update_freq self) with
  | Raise e => (Raise e, self)
  | Ok r =>
      if (r =? 0)%Z then
        let objective := obj_actor (cri self) batch (act self) in
        let (optimizer, act') :=
          optimizer_backward (act_optimizer self) (act self)
            (fun act => neg (obj_actor (cri self) batch act)) in
        let target := soft_update (act_target self) act'
                        (AgentBase.soft_update_tau (base self)) in
        (Ok objective,
         {| base := base self; update_freq := update_freq self;
            num_ensembles := num_ensembles self;
            policy_noise_std := policy_noise_std self;
            explore_noise_std := explore_noise_std self;
            act := act'; cri := cri self;
            act_target := target; cri_target := cri_target self;
            act_optimizer := optimizer; cri_optimizer := cri_optimizer self |})
      else (Ok NaN, self)
  end.

(** [self] with the critic, its target and its optimizer replaced. *)
Definition with_critic (self : t) (cri cri_target : CriticTwin.t) (optimizer : Optimizer) : t :=
  {| base := base self; update_freq := update_freq self;
     num_ensembles := num_ensembles self;
     policy_noise_std := policy_noise_std self;
     explore_noise_std := explore_noise_std self;
     act := act self; cri := cri;
     act_target := act_target self; cri_target := cri_target;
     act_optimizer := act_optimizer self; cri_optimizer := optimizer |}.

Definition _update_objectives_raw (self : t) (buffer : Buffer) (g : Rng) (batch_size : nat)
    (update_t : obj) : res (pyfloat * pyfloat) * (t * Buffer * Rng) :=
  if isinstance_int update_t then
    let (batch, buffer) := sample buffer batch_size in
    let (next_action, g) :=
      Actor.get_action (act self) (Batch.next_state batch) (policy_noise_std self) g in
    let q_label := q_label self batch next_action in
    let obj_critic := obj_critic_raw self batch q_label (cri self) in
    let (optimizer, cri') :=
      optimizer_backward (cri_optimizer self) (cri self) (obj_critic_raw self batch q_label) in
    let target := soft_update (cri_target self) cri' (AgentBase.soft_update_tau (base self)) in
    let self := with_critic self cri' target optimizer in
    match delayed_actor_update self batch update_t with
    | (Ok obj_actor, self) => (Ok (obj_critic, obj_actor), (self, buffer, g))
    | (Raise e, self) => (Raise e, (self, buffer, g))
    end
  else (Raise AssertionError, (self, buffer, g)).

Definition _update_objectives_per (self : t) (buffer : Buffer) (g : Rng) (batch_size : nat)
    (update_t : obj) : res (pyfloat * pyfloat) * (t * Buffer * Rng) :=
  if isinstance_int update_t then
    let (per, buffer) := sample_for_per buffer batch_size in
    let batch := PerBatch.batch per in
    let (next_action, g) :=
      Actor.get_action (act self) (Batch.next_state batch) (policy_noise_std self) g in
    let q_label := q_label self batch next_action in
    let td_error := td_error self (cri self) batch q_label in
    let obj_critic := obj_critic_per self batch q_label (PerBatch.is_weight per) (cri self) in
    let (optimizer, cri') :=
      optimizer_backward (cri_optimizer self) (cri self)
        (obj_critic_per self batch q_label (PerBatch.is_weight per)) in
    let target := soft_update (cri_target self) cri' (AgentBase.soft_update_tau (base self)) in
    let buffer := td_error_update_for_per buffer (PerBatch.is_index per) td_error in
    let self := with_critic self cri' target optimizer in
    match delayed_actor_update self batch update_t with
    | (Ok obj_actor, self) => (Ok (obj_critic, obj_actor), (self, buffer, g))
    | (Raise e, self) => (Raise e, (self, buffer, g))
    end
  else (Raise AssertionError, (self, buffer, g)).

End WithCollaborators.

End AgentTD3.

(** ** Method resolution in the DQN family *)

Module Variant.

Inductive t := DQN | DoubleDQN | DuelingDQN | D3QN.

Section WithCollaborators.
Context `{Torch} `{MlpFactory} `{Training} `{ReplayBuffer}.

(** The constructor of each class, called on a fresh object. *)
Definition init (v : t) : AgentBase.t -> list nat -> nat -> nat -> Config.t -> AgentDQN.t :=
  match v with
  | DQN => AgentDQN.init None None
  | DoubleDQN => AgentDoubleDQN.init None None
  | DuelingDQN => AgentDuelingDQN.init None None
  | D3QN => AgentD3QN.init None None
  end.

(** The target under [th.no_grad()] of the update methods an instance runs:
    [AgentDuelingDQN] inherits those of [AgentDQN], [AgentD3QN] those of
    [AgentDoubleDQN]. *)
Definition next_q (v : t) (self : AgentDQN.t) (batch : Batch.t) : res tensor1 :=
  match v with
  | DQN | DuelingDQN => Ok (AgentDQN.next_q self batch)
  | DoubleDQN | D3QN => AgentDoubleDQN.next_q self batch
  end.

Definition q_label (v : t) (self : AgentDQN.t) (batch : Batch.t) : res tensor1 :=
  match v with
  | DQN | DuelingDQN => Ok (AgentDQN.q_label self batch)
  | DoubleDQN | D3QN => AgentDoubleDQN.q_label self batch
  end.

Definition _update_objectives_raw (v : t)
  : AgentDQN.t -> Buffer -> nat -> obj -> res (pyfloat * pyfloat) * (AgentDQN.t * Buffer) :=
  match v with
  | DQN | DuelingDQN => AgentDQN._update_objectives_raw
  | DoubleDQN | D3QN => AgentDoubleDQN._update_objectives_raw
  end.

Definition _update_objectives_per (v : t)
  : AgentDQN.t -> Buffer -> nat -> obj -> res (pyfloat * pyfloat) * (AgentDQN.t * Buffer) :=
  match v with
  | DQN | DuelingDQN => AgentDQN._update_objectives_per
  | DoubleDQN | D3QN => AgentDoubleDQN._update_objectives_per
  end.

(** The exploration helpers are defined in [AgentDQN] only. *)
Definition _explore_one_action (v : t) : AgentDQN.t -> list Q -> Rng -> res nat * Rng :=
  AgentDQN._explore_one_action.

Definition _explore_vec_action (v : t) : AgentDQN.t -> tensor2 -> Rng -> res (list nat) * Rng :=
  AgentDQN._explore_vec_action.


End WithCollaborators.

End Variant.

(** ** The calling sequence of the delayed update

    [n] calls of an update method of [AgentTD3] in a row, with
    [update_t = t0, t0 + 1, ...]; each entry is the agent before the call, what
    the call returns and the agent after it.  An exception ends the sequence. *)

Module Loop.

Section WithCollaborators.
Context `{Torch} `{MlpFactory} `{Training} `{ReplayBuffer}.

Definition method :=
  AgentTD3.t -> Buffer -> Rng -> nat -> obj ->
  res (pyfloat * pyfloat) * (AgentTD3.t * Buffer * Rng).





(** The two update methods of [AgentTD3]. *)
Definition is_update_method (update : method) : Prop :=
  update = AgentTD3._update_objectives_raw \/ update = AgentTD3._update_objectives_per.

End WithCollaborators.

End Loop.

(** ** Properties of targets and rows *)

(** What it is for [label] to be the regression target of a batch: row by
    row, [reward + undone * gamma * next_q], which is the reward itself on a
    row whose [undone] is zero. *)
Definition regression_target (reward undone : tensor1) (gamma : Q) (next_q label : tensor1)
  : Prop :=
  length label = Nat.min (length reward) (Nat.min (length undone) (length next_q)) /\
  forall i r u q,
    nth_error reward i = Some r -> nth_error undone i = Some u -> nth_error next_q i = Some q ->
    exists t, nth_error label i = Some t /\ t == r + u * gamma * q /\ (u == 0 -> t == r).

(** [w] is the greatest of the entrywise minima of two rows. *)
Definition max_of_min (r1 r2 : list Q) (w : Q) : Prop :=
  (forall a x y, nth_error r1 a = Some x -> nth_error r2 a = Some y -> Qmin x y <= w) /\
  (exists a x y, nth_error r1 a = Some x /\ nth_error r2 a = Some y /\ w = Qmin x y).

(** One row of a dueling output, for the row [q_val] of the head [net_val]
    and the entry [q_adv] of the head [net_adv]: every entry is the entry of
    [q_val] moved by [q_adv - mean(q_val)], the same for all actions, so the
    difference between two actions is the difference in [q_val]. *)
Definition dueling_row (q_val : list Q) (q_adv : Q) (value : list Q) : Prop :=
  length value = length q_val /\
  (forall a x, nth_error q_val a = Some x ->
     exists v, nth_error value a = Some v /\ v == x + (q_adv - mean_row q_val)) /\
  (forall a b xa xb va vb,
     nth_error q_val a = Some xa -> nth_error q_val b = Some xb ->
     nth_error value a = Some va -> nth_error value b = Some vb ->
     va - vb == xa - xb).

(** ** The readings of the specification that are compared with the code *)

Module Reading.


(** "The per-head losses are summed before masking": the sum over the
    critics of each sample, then the mask. *)
Definition td_error_summed (losses : tensor2) (unmask : tensor1) : tensor1 :=
  t1_mul (map t_sum losses) unmask.

(** "Applies per-row": every row of the batch makes its own draw and its own
    choice between the greedy and the random action. *)
Fixpoint get_action_per_row `{Torch} (self : QNetwork.t) (state : tensor2) (explore_rate : Q)
    (g : Rng) : list nat * Rng :=
  match state with
  | [] => ([], g)
  | row :: rest =>
      let (a, g) := QNetwork.get_action self [row] explore_rate g in
      let (actions, g) := get_action_per_row self rest explore_rate g in
      (a ++ actions, g)
  end.

End Reading.

(** ** AgentDQN.py: [AgentDQN.get_cumulative_rewards]

    [last_state] is the attribute [self.last_state], which [AgentBase] keeps.
    [rewards] and [undones] have one row for each step of the horizon and one
    entry in a row for each environment. *)

Module Rollout.

Section WithCollaborators.
Context `{Training}.

(** The loop [for t in range(horizon_len - 1, -1, -1)]: [rows] holds
    [(rewards[t], masks[t])] for the steps still to visit, the latest first;
    [returns[t]] is written for decreasing [t], so the rows written so far
    are those of the steps after [t], in order. *)
Fixpoint backward (rows : list (tensor1 * tensor1)) (next_value : tensor1) (returns : tensor2)
  : tensor2 :=
  match rows with
  | [] => returns
  | (reward, mask) :: rows =>
      let next_value := t1_add reward (t1_mul mask next_value) in
      backward rows next_value (next_value :: returns)
  end.

(** [self.act_target(last_state).argmax(dim=1)], an integer tensor, as it
    enters the float arithmetic of the loop. *)
Definition last_value (self : AgentDQN.t) (last_state : tensor2) : tensor1 :=
  map (fun a => inject_Z (Z.of_nat a))
      (argmax_dim1 (QModule.call (AgentDQN.act_target self) last_state)).

Definition get_cumulative_rewards (self : AgentDQN.t) (last_state : tensor2)
    (rewards undones : tensor2) : tensor2 :=
  let masks := map (fun row => t1_scale row (AgentBase.gamma (AgentDQN.base self))) undones in
  let next_value := last_value self last_state in
  backward (rev (combine rewards masks)) next_value [].

End WithCollaborators.

End Rollout.

(** ** A deterministic instance of the collaborators

    Random draws are read from a tape and the normal sample is its mean; the
    optimizer makes no step and the soft update copies the current module
    ([tau = 1]); the buffer returns copies of one stored transition; every
    network built by the factory is the zero network; [clip] and the identity
    stand for [tanh] and the softmax, which have no rational values. *)

Module Tape.

Definition draw (g : list Q) : Q * list Q := (hd 0 g, tl g).

Definition draw_ints (high n : nat) (g : list Q) : list nat * list Q :=
  (map (fun u => Z.to_nat (Qfloor (u * inject_Z (Z.of_nat high))))
       (firstn n (g ++ repeat 0 n)),
   skipn n g).

Lemma draw_ints_length high n g : length (fst (draw_ints high n g)) = n.
Proof.
  unfold draw_ints; simpl.
  rewrite length_map, length_firstn, length_app, repeat_length. lia.
Qed.

#[export] Instance torch : Torch := {|
  Rng := list Q;
  rand := draw;
  randint := draw_ints;
  randint_length := draw_ints_length;
  multinomial := fun a_prob g => (map argmax_row a_prob, g);
  normal_sample := fun avg std g => (avg, g);
  normal_sample_length := fun avg std g => eq_refl;
  tanh := clip;
  soft_max := fun row => row
|}.

#[export] Instance factory : MlpFactory := {|
  build_mlp := fun dims _ => repeat 0 (last dims 0%nat);
  layer_init_with_orthogonal := fun net _ => net
|}.

#[export] Instance training : Training := {|
  Optimizer := unit;
  Adam := fun _ => tt;
  optimizer_backward := fun M optimizer module _ => (optimizer, module);
  soft_update := fun M target current _ => current
|}.

(** One stored transition. *)
Record transition := {
  state : list Q;
  action : list Q;
  reward : Q;
  undone : Q;
  unmask : Q;
  next_state : list Q
}.

Definition copies (b : transition) (n : nat) : Batch.t * transition :=
  ({| Batch.state := repeat (state b) n;
      Batch.action := repeat (action b) n;
      Batch.reward := repeat (reward b) n;
      Batch.undone := repeat (undone b) n;
      Batch.unmask := repeat (unmask b) n;
      Batch.next_state := repeat (next_state b) n |}, b).

Definition copies_for_per (b : transition) (n : nat) : PerBatch.t * transition :=
  ({| PerBatch.batch := fst (copies b n);
      PerBatch.is_weight := repeat 1 n;
      PerBatch.is_index := repeat 0%Z n |}, b).

Lemma copies_wf b n : Batch.wf n (fst (copies b n)).
Proof. unfold Batch.wf; simpl; repeat split; apply repeat_length. Qed.

Lemma copies_for_per_wf b n : PerBatch.wf n (fst (copies_for_per b n)).
Proof.
  unfold PerBatch.wf; simpl; repeat split; try apply repeat_length.
Qed.

#[export] Instance buffer : ReplayBuffer := {|
  Buffer := transition;
  sample := copies;
  sample_for_per := copies_for_per;
  td_error_update_for_per := fun b _ _ => b;
  sample_wf := copies_wf;
  sample_for_per_wf := copies_for_per_wf
|}.

End Tape.

(** ** Concrete modules, agents and batches used in the examples *)

Module Example.

Definition base : AgentBase.t :=
  {| AgentBase.gamma := 99 # 100;
     AgentBase.learning_rate := 1 # 1000;
     AgentBase.soft_update_tau := 1 # 200;
     AgentBase.criterion := fun a b => (a - b) * (a - b) |}.

Definition config : Config.t :=
  {| Config.explore_rate := None;
     Config.update_freq := None;
     Config.num_ensembles := None;
     Config.policy_noise_std := None;
     Config.explore_noise_std := None |}.

(** Two actions; the first head prefers action 0, the second action 1. *)
Definition twin : QNetTwin.t :=
  {| QNetTwin.base := QNetBase.init 1 2;
     QNetTwin.net_state := fun x => x;
     QNetTwin.net_val1 := fun _ => [1; 0];
     QNetTwin.net_val2 := fun _ => [0; 1] |}.

Definition double_agent `{Training} : AgentDQN.t :=
  {| AgentDQN.base := base;
     AgentDQN.act_class := Some QModule.ClsQNetTwin;
     AgentDQN.cri_class := Some None;
     AgentDQN.cri := QModule.Twin twin;
     AgentDQN.cri_target := QModule.Twin twin;
     AgentDQN.cri_optimizer := Adam (1 # 1000);
     AgentDQN.explore_rate := 1 # 4 |}.

(** Two transitions, the first of them terminal. *)
Definition batch : Batch.t :=
  {| Batch.state := [[1]; [2]];
     Batch.action := [[0]; [1]];
     Batch.reward := [1; 2];
     Batch.undone := [0; 1];
     Batch.unmask := [1; 1];
     Batch.next_state := [[2]; [3]] |}.

(** A critic of two heads on a state and an action of one entry each, and
    an actor that returns the state. *)
Definition critic : CriticTwin.t :=
  {| CriticTwin.base := ModuleBase.init 1 1;
     CriticTwin.net := fun x => [hd 0 x; 0] |}.

Definition actor : Actor.t :=
  {| Actor.base := ModuleBase.init 1 1;
     Actor.net := fun x => [hd 0 x];
     Actor.explore_noise_std := 1 # 100 |}.

Definition td3_agent `{Training} : AgentTD3.t :=
  {| AgentTD3.base := base;
     AgentTD3.update_freq := 2;
     AgentTD3.num_ensembles := 2;
     AgentTD3.policy_noise_std := 1 # 10;
     AgentTD3.explore_noise_std := 1 # 20;
     AgentTD3.act := actor;
     AgentTD3.cri := critic;
     AgentTD3.act_target := actor;
     AgentTD3.cri_target := critic;
     AgentTD3.act_optimizer := Adam (1 # 1000);
     AgentTD3.cri_optimizer := Adam (1 # 1000) |}.

(** Two dueling modules with one and the same advantage head [net_adv] and
    different heads [net_val]. *)
Definition duel_a : QNetDuel.t :=
  {| QNetDuel.base := QNetBase.init 1 2;
     QNetDuel.net_state := fun x => x;
     QNetDuel.net_adv := fun _ => [0];
     QNetDuel.net_val := fun _ => [0; 1] |}.

Definition duel_b : QNetDuel.t :=
  {| QNetDuel.base := QNetBase.init 1 2;
     QNetDuel.net_state := fun x => x;
     QNetDuel.net_adv := fun _ => [0];
     QNetDuel.net_val := fun _ => [0; 2] |}.

Definition twin_duel : QNetTwinDuel.t :=
  {| QNetTwinDuel.base := QNetBase.init 1 2;
     QNetTwinDuel.net_state := fun x => x;
     QNetTwinDuel.net_adv1 := fun x => [hd 0 x];
     QNetTwinDuel.net_val1 := fun _ => [0; 1];
     QNetTwinDuel.net_adv2 := fun _ => [3];
     QNetTwinDuel.net_val2 := fun x => [hd 0 x; 2] |}.

(** A critic whose two heads both return the first entry of their input,
    with the normalization statistics [state_avg = [1]], [state_std = [1]]. *)
Definition critic_shifted : CriticTwin.t :=
  {| CriticTwin.base :=
       {| ModuleBase.state_dim := 1; ModuleBase.action_dim := 1;
          ModuleBase.state_avg := [1]; ModuleBase.state_std := [1] |};
     CriticTwin.net := fun x => [hd 0 x; hd 0 x] |}.

(** A stored transition for the tape buffer. *)
Definition stored : Tape.transition :=
  {| Tape.state := [1]; Tape.action := [0]; Tape.reward := 1; Tape.undone := 1;
     Tape.unmask := 1; Tape.next_state := [2] |}.

(** A plain Q-network of two actions that always prefers action 1. *)
Definition plain : QNetwork.t :=
  {| QNetwork.base := QNetBase.init 1 2;
     QNetwork.net := fun _ => [0; 1] |}.

End Example.

(** ** Lists and tensors *)

Section Map2.
Context {A B C : Type} (f : A -> B -> C).

Lemma length_map2 (xs : list A) (ys : list B) :
  length (map2 f xs ys) = Nat.min (length xs) (length ys).
Proof.
  revert ys; induction xs as [|x xs IH]; intros [|y ys]; simpl; auto.
Qed.

Lemma nth_error_map2 (xs : list A) (ys : list B) (i : nat) (x : A) (y : B) :
  nth_error xs i = Some x -> nth_error ys i = Some y ->
  nth_error (map2 f xs ys) i = Some (f x y).
Proof.
  revert ys i; induction xs as [|x0 xs IH]; intros [|y0 ys] [|i]; simpl;
    try discriminate; intros Hx Hy.
  - congruence.
  - auto.
Qed.

Lemma nth_error_map2_inv (xs : list A) (ys : list B) (i : nat) (z : C) :
  nth_error (map2 f xs ys) i = Some z ->
  exists x y, nth_error xs i = Some x /\ nth_error ys i = Some y /\ z = f x y.
Proof.
  revert ys i; induction xs as [|x0 xs IH]; intros [|y0 ys] [|i]; simpl;
    try discriminate; intros Hz.
  - injection Hz as <-. eauto.
  - eauto.
Qed.

End Map2.

Lemma nth_error_map_some {A B : Type} (f : A -> B) (xs : list A) (i : nat) (x : A) :
  nth_error xs i = Some x -> nth_error (map f xs) i = Some (f x).
Proof. intros Hx. rewrite nth_error_map, Hx. reflexivity. Qed.


Lemma td_target_regression (reward undone : tensor1) (gamma : Q) (next_q : tensor1) :
  regression_target reward undone gamma next_q (td_target reward undone gamma next_q).
Proof.
  unfold regression_target, td_target, t1_add, t1_mul, t1_scale; split.
  - now rewrite !length_map2, length_map.
  - intros i r u q Hr Hu Hq.
    exists (r + u * gamma * q); split; [|split].
    + apply nth_error_map2; [assumption|].
      apply nth_error_map2; [|assumption].
      now rewrite nth_error_map, Hu.
    + reflexivity.
    + intros Hz. rewrite Hz. ring.
Qed.

(** Every module returns one row of values for each row of states. *)

Lemma state_norm_length (b : QNetBase.t) (state : tensor2) :
  length (QNetBase.state_norm b state) = length state.
Proof. unfold QNetBase.state_norm. apply length_map. Qed.

Lemma duel_length (q_val : tensor2) (q_adv : tensor1) :
  length q_adv = length q_val ->
  length (t2_add_col (t2_sub_col q_val (mean_dim1 q_val)) q_adv) = length q_val.
Proof.
  intros Hl. unfold t2_add_col, t2_sub_col, mean_dim1.
  rewrite !length_map2, length_map. lia.
Qed.

Lemma call_length (m : QModule.t) (state : tensor2) :
  length (QModule.call m state) = length state.
Proof.
  destruct m as [m|m|m|m]; simpl.
  - unfold QNetwork.forward. now rewrite length_map, state_norm_length.
  - unfold QNetDuel.forward. rewrite duel_length.
    + now rewrite !length_map, state_norm_length.
    + unfold col. now rewrite !length_map.
  - unfold QNetTwin.forward. now rewrite !length_map, state_norm_length.
  - unfold QNetTwinDuel.forward. rewrite duel_length.
    + now rewrite !length_map, state_norm_length.
    + unfold col. now rewrite !length_map.
Qed.

Lemma get_q1_q2_length (m : QModule.t) (state q1 q2 : tensor2) :
  QModule.get_q1_q2 m state = Ok (q1, q2) ->
  length q1 = length state /\ length q2 = length state.
Proof.
  destruct m as [m|m|m|m]; simpl; try discriminate; intros Hq; injection Hq as <- <-.
  - now rewrite !length_map, state_norm_length.
  - rewrite !duel_length; unfold col; rewrite !length_map; auto using state_norm_length.
Qed.


Lemma get_q_values_length (cri : CriticTwin.t) (state action : tensor2) :
  length (CriticTwin.get_q_values cri state action)
  = Nat.min (length state) (length action).
Proof.
  unfold CriticTwin.get_q_values, cat_dim1, ModuleBase.state_norm.
  now rewrite length_map, length_map2, length_map.
Qed.

(** ** C1: the regression target *)


(** ** Maximum and minimum of a row *)

Lemma Qmax_cases (x y : Q) : Qmax x y = x \/ Qmax x y = y.
Proof. unfold Qmax, GenericMinMax.gmax. destruct (x ?= y); auto. Qed.

Lemma Qmin_cases (x y : Q) : Qmin x y = x \/ Qmin x y = y.
Proof. unfold Qmin, GenericMinMax.gmin. destruct (x ?= y); auto. Qed.

Lemma fold_max_ge (xs : list Q) (x : Q) :
  x <= fold_left Qmax xs x /\ (forall y, In y xs -> y <= fold_left Qmax xs x).
Proof.
  revert x; induction xs as [|z xs IH]; intros x; simpl.
  - split; [apply Qle_refl | tauto].
  - destruct (IH (Qmax x z)) as [H1 H2]. split.
    + eapply Qle_trans; [apply Q.le_max_l | exact H1].
    + intros y [<- | Hy]; [|auto].
      eapply Qle_trans; [apply Q.le_max_r | exact H1].
Qed.

Lemma fold_max_in (xs : list Q) (x : Q) :
  fold_left Qmax xs x = x \/ In (fold_left Qmax xs x) xs.
Proof.
  revert x; induction xs as [|z xs IH]; intros x; simpl; auto.
  destruct (IH (Qmax x z)) as [E | Hin]; [|auto].
  rewrite E. destruct (Qmax_cases x z) as [-> | ->]; auto.
Qed.

Lemma fold_min_le (xs : list Q) (x : Q) :
  fold_left Qmin xs x <= x /\ (forall y, In y xs -> fold_left Qmin xs x <= y).
Proof.
  revert x; induction xs as [|z xs IH]; intros x; simpl.
  - split; [apply Qle_refl | tauto].
  - destruct (IH (Qmin x z)) as [H1 H2]. split.
    + eapply Qle_trans; [exact H1 | apply Q.le_min_l].
    + intros y [<- | Hy]; [|auto].
      eapply Qle_trans; [exact H1 | apply Q.le_min_r].
Qed.

Lemma fold_min_in (xs : list Q) (x : Q) :
  fold_left Qmin xs x = x \/ In (fold_left Qmin xs x) xs.
Proof.
  revert x; induction xs as [|z xs IH]; intros x; simpl; auto.
  destruct (IH (Qmin x z)) as [E | Hin]; [|auto].
  rewrite E. destruct (Qmin_cases x z) as [-> | ->]; auto.
Qed.

Lemma max_row_ge (row : list Q) (x : Q) : In x row -> x <= max_row row.
Proof.
  destruct row as [|z row]; simpl; [tauto|].
  destruct (fold_max_ge row z) as [H1 H2]. intros [<- | Hx]; auto.
Qed.

Lemma max_row_in (row : list Q) : row <> [] -> In (max_row row) row.
Proof.
  destruct row as [|z row]; [congruence|]. intros _. simpl.
  destruct (fold_max_in row z) as [-> | Hin]; auto.
Qed.

Lemma min_row_le (row : list Q) (x : Q) : In x row -> min_row row <= x.
Proof.
  destruct row as [|z row]; simpl; [tauto|].
  destruct (fold_min_le row z) as [H1 H2]. intros [<- | Hx]; auto.
Qed.

Lemma min_row_in (row : list Q) : row <> [] -> In (min_row row) row.
Proof.
  destruct row as [|z row]; [congruence|]. intros _. simpl.
  destruct (fold_min_in row z) as [-> | Hin]; auto.
Qed.

Lemma in_map2_inv {A B C : Type} (f : A -> B -> C) (xs : list A) (ys : list B) (z : C) :
  In z (map2 f xs ys) ->
  exists a x y, nth_error xs a = Some x /\ nth_error ys a = Some y /\ z = f x y.
Proof.
  intros Hin. apply In_nth_error in Hin as [a Ha].
  apply nth_error_map2_inv in Ha as (x & y & Hx & Hy & ->). eauto 6.
Qed.

Lemma map2_nonempty {A B C : Type} (f : A -> B -> C) (xs : list A) (ys : list B) :
  xs <> [] -> ys <> [] -> map2 f xs ys <> [].
Proof. destruct xs, ys; simpl; congruence. Qed.


Lemma max_row_min_spec (r1 r2 : list Q) :
  r1 <> [] -> r2 <> [] ->
  max_of_min r1 r2 (max_row (map2 Qmin r1 r2)) /\
  max_row (map2 Qmin r1 r2) <= max_row r1 /\
  max_row (map2 Qmin r1 r2) <= max_row r2.
Proof.
  intros H1 H2.
  pose proof (max_row_in _ (map2_nonempty Qmin _ _ H1 H2)) as Hin.
  apply in_map2_inv in Hin as (a & x & y & Hx & Hy & E).
  split; [split|split].
  - intros b x' y' Hx' Hy'. apply max_row_ge.
    eapply nth_error_In. apply nth_error_map2; eassumption.
  - eauto 6.
  - rewrite E. eapply Qle_trans; [apply Q.le_min_l|].
    apply max_row_ge. eapply nth_error_In; eassumption.
  - rewrite E. eapply Qle_trans; [apply Q.le_min_r|].
    apply max_row_ge. eapply nth_error_In; eassumption.
Qed.

(** ** C2: minimum of the two estimators before the maximum over actions *)




(** ** Sums and means *)

Lemma t_sum_app (a b : list Q) : t_sum (a ++ b) == t_sum a + t_sum b.
Proof.
  induction a as [|x a IH]; simpl.
  - ring.
  - rewrite IH. ring.
Qed.

Lemma t_sum_map_mul (row : list Q) (x : Q) : t_sum (map (fun v => v * x) row) == t_sum row * x.
Proof.
  induction row as [|v row IH]; simpl.
  - ring.
  - rewrite IH. ring.
Qed.

Lemma sum_concat_mul_col (L : tensor2) (u : tensor1) :
  t_sum (concat (t2_mul_col L u)) == t_sum (map2 (fun row x => t_sum row * x) L u).
Proof.
  unfold t2_mul_col. revert u; induction L as [|row L IH]; intros [|x u]; simpl;
    try reflexivity.
  rewrite t_sum_app, t_sum_map_mul, IH. reflexivity.
Qed.

Lemma length_concat_mul_col (L : tensor2) (u : tensor1) (N : nat) :
  Forall (fun row => length row = N) L -> length L = length u ->
  length (concat (t2_mul_col L u)) = (N * length L)%nat.
Proof.
  unfold t2_mul_col. intros HL; revert u; induction HL as [|row L Hrow HL IH];
    intros [|x u]; simpl; try discriminate; intros Hlen.
  - lia.
  - rewrite length_app, length_map, IH by lia. lia.
Qed.

Lemma map2_map_l {A A' B C : Type} (f : A' -> B -> C) (g : A -> A') (xs : list A) (ys : list B) :
  map2 f (map g xs) ys = map2 (fun x y => f (g x) y) xs ys.
Proof.
  revert ys; induction xs as [|x xs IH]; intros [|y ys]; simpl; auto. now rewrite IH.
Qed.

Lemma sum_mean_mul_col (L : tensor2) (u : tensor1) (N : nat) :
  (0 < N)%nat -> Forall (fun row => length row = N) L ->
  t_sum (t1_mul (mean_dim1 L) u) * inject_Z (Z.of_nat N)
  == t_sum (map2 (fun row x => t_sum row * x) L u).
Proof.
  intros HN HL. unfold t1_mul, mean_dim1. rewrite map2_map_l.
  assert (HNq : ~ inject_Z (Z.of_nat N) == 0).
  { intros E. unfold Qeq in E; simpl in E. lia. }
  revert u; induction HL as [|row L Hrow HL IH]; intros [|x u]; simpl; try ring.
  rewrite <- IH. unfold mean_row. rewrite Hrow. field. exact HNq.
Qed.

(** The mean over all entries of the masked [B, N] losses is the mean over
    the batch of the masked means over the critics. *)
Lemma mean_concat_mul_col (L : tensor2) (u : tensor1) (N : nat) :
  (0 < N)%nat -> L <> [] -> Forall (fun row => length row = N) L -> length L = length u ->
  mean_row (concat (t2_mul_col L u)) == mean_row (t1_mul (mean_dim1 L) u).
Proof.
  intros HN Hne HL Hlen.
  pose proof (sum_concat_mul_col L u) as Hs.
  pose proof (sum_mean_mul_col L u N HN HL) as Hm.
  pose proof (length_concat_mul_col L u N HL Hlen) as Hc.
  assert (Hl : length (t1_mul (mean_dim1 L) u) = length L).
  { unfold t1_mul, mean_dim1. rewrite length_map2, length_map. lia. }
  unfold mean_row. rewrite Hc, Hl, Hs, <- Hm.
  rewrite Nat2Z.inj_mul, inject_Z_mult.
  assert (HB : (0 < length L)%nat) by (destruct L; simpl; [congruence | lia]).
  field. split; intros E; unfold Qeq in E; simpl in E; lia.
Qed.

(** ** What the update methods return

    The objectives an update method returns are those of the target and of
    the errors defined with it. *)

Section UpdateResults.
Context `{Torch} `{Training} `{ReplayBuffer}.

Lemma dqn_update_raw_returns (self : AgentDQN.t) (buffer : Buffer) (batch_size : nat)
    (update_t : obj) :
  isinstance_int update_t = true ->
  let batch := fst (sample buffer batch_size) in
  let label := AgentDQN.q_label self batch in
  fst (AgentDQN._update_objectives_raw self buffer batch_size update_t)
  = Ok (mean_item (AgentDQN.td_error self (AgentDQN.cri self) batch label),
        mean_item (AgentDQN.q_value (AgentDQN.cri self) batch)).
Proof.
  intros Hint batch label. unfold AgentDQN._update_objectives_raw, batch, label.
  rewrite Hint. destruct (sample buffer batch_size) as [b buffer1]; simpl.
  now destruct optimizer_backward.
Qed.

Lemma double_update_raw_returns (self : AgentDQN.t) (buffer : Buffer) (batch_size : nat)
    (update_t : obj) (label q_value1 q_value2 : tensor1) :
  isinstance_int update_t = true ->
  let batch := fst (sample buffer batch_size) in
  AgentDoubleDQN.q_label self batch = Ok label ->
  AgentDoubleDQN.q_values (AgentDQN.act self) batch = Ok (q_value1, q_value2) ->
  fst (AgentDoubleDQN._update_objectives_raw self buffer batch_size update_t)
  = Ok (mean_item (AgentDoubleDQN.td_error self q_value1 q_value2 batch label),
        mean_item q_value1).
Proof.
  intros Hint batch. unfold AgentDoubleDQN._update_objectives_raw, batch.
  rewrite Hint. destruct (sample buffer batch_size) as [b buffer1]; simpl.
  intros -> ->. now destruct optimizer_backward.
Qed.

Lemma double_update_per_returns (self : AgentDQN.t) (buffer : Buffer) (batch_size : nat)
    (update_t : obj) (label q_value1 q_value2 : tensor1) :
  isinstance_int update_t = true ->
  let per := fst (sample_for_per buffer batch_size) in
  let batch := PerBatch.batch per in
  AgentDoubleDQN.q_label self batch = Ok label ->
  AgentDoubleDQN.q_values (AgentDQN.act self) batch = Ok (q_value1, q_value2) ->
  let td_error := AgentDoubleDQN.td_error self q_value1 q_value2 batch label in
  fst (AgentDoubleDQN._update_objectives_per self buffer batch_size update_t)
  = Ok (mean_item (t1_mul td_error (PerBatch.is_weight per)), mean_item q_value1) /\
  snd (snd (AgentDoubleDQN._update_objectives_per self buffer batch_size update_t))
  = td_error_update_for_per (snd (sample_for_per buffer batch_size))
      (PerBatch.is_index per) td_error.
Proof.
  intros Hint per batch. unfold AgentDoubleDQN._update_objectives_per, batch, per.
  rewrite Hint. destruct (sample_for_per buffer batch_size) as [b buffer1]; simpl.
  intros -> ->. now destruct optimizer_backward.
Qed.

End UpdateResults.

(** ** C3: how the losses of the heads are combined *)

(** C3, as stated, fails for TD3: on the example critic of two heads the
    error per sample is the mean of the two losses times the mask,
    [1/2; 2], and not their sum times the mask, [1; 4]. *)
Lemma td3_heads_are_not_summed :
  ~ Forall2 Qeq
      (AgentTD3.td_error (@Example.td3_agent Tape.training) Example.critic Example.batch [0; 0])
      (Reading.td_error_summed
         (AgentTD3.losses (@Example.td3_agent Tape.training) Example.critic Example.batch [0; 0])
         (Batch.unmask Example.batch)).
Proof.
  intros Hf. vm_compute in Hf.
  inversion Hf as [|x y l l' Hxy Hrest]; subst.
  unfold Qeq in Hxy; simpl in Hxy. discriminate.
Qed.

Lemma losses_shape `{Training} (self : AgentTD3.t) (cri : CriticTwin.t) (batch : Batch.t)
    (label : tensor1) (n N : nat) :
  Batch.wf n batch -> length label = n ->
  (forall x, length (CriticTwin.net cri x) = N) ->
  length (AgentTD3.losses self cri batch label) = n /\
  Forall (fun row => length row = N) (AgentTD3.losses self cri batch label).
Proof.
  intros (Hs & Ha & _) Hl HN. unfold AgentTD3.losses.
  set (q_values := CriticTwin.get_q_values cri (Batch.state batch) (Batch.action batch)).
  assert (Hq : length q_values = n).
  { unfold q_values. rewrite get_q_values_length. lia. }
  assert (Hrows : Forall (fun row => length row = N) q_values).
  { unfold q_values, CriticTwin.get_q_values. apply Forall_map, Forall_forall. auto. }
  split.
  - unfold repeat_cols. rewrite length_map2, length_map. lia.
  - assert (Hshape : q_values = [] \/ shape1 q_values = N).
    { destruct Hrows; simpl; auto. }
    destruct Hshape as [-> | ->]; [constructor|].
    unfold repeat_cols. clear Hq Hl. revert label.
    induction Hrows as [|row rows Hrow Hrows IH]; intros [|l label]; simpl; constructor.
    + rewrite length_map2, repeat_length. lia.
    + apply IH.
Qed.

(** C3, amended.  In the twin-Q update of the DQN family the losses of the
    two heads are added before the mask (and, on the prioritized path, the
    importance weight) is applied.  In TD3 the losses of the heads are
    averaged, not summed: the prioritized update takes their mean over the
    ensemble before it applies the mask, and the objective of the raw update,
    the mean over all masked entries, is the mean over the batch of those
    masked means. *)
Theorem heads_combined_before_masking `{Training} :
  (forall (self : AgentDQN.t) (q_value1 q_value2 : tensor1) (batch : Batch.t) (label : tensor1)
          (i : nat) (a b l m : Q),
     nth_error q_value1 i = Some a -> nth_error q_value2 i = Some b ->
     nth_error label i = Some l -> nth_error (Batch.unmask batch) i = Some m ->
     let criterion := AgentBase.criterion (AgentDQN.base self) in
     nth_error (AgentDoubleDQN.td_error self q_value1 q_value2 batch label) i
     = Some ((criterion a l + criterion b l) * m)) /\
  (forall (self : AgentTD3.t) (cri : CriticTwin.t) (batch : Batch.t) (label : tensor1)
          (i : nat) (row : list Q) (m : Q),
     nth_error (AgentTD3.losses self cri batch label) i = Some row ->
     nth_error (Batch.unmask batch) i = Some m ->
     nth_error (AgentTD3.td_error self cri batch label) i = Some (mean_row row * m)) /\
  (forall (self : AgentTD3.t) (cri : CriticTwin.t) (batch : Batch.t) (label : tensor1)
          (n N : nat),
     Batch.wf n batch -> length label = n -> (0 < n)%nat -> (0 < N)%nat ->
     (forall x, length (CriticTwin.net cri x) = N) ->
     exists x y,
       AgentTD3.obj_critic_raw self batch label cri = Fin x /\
       mean_item (AgentTD3.td_error self cri batch label) = Fin y /\
       x == y).
Proof.
  split; [|split].
  - intros self v1 v2 batch label i a b l m Ha Hb Hl Hm criterion.
    unfold AgentDoubleDQN.td_error, t1_mul, t1_add.
    apply nth_error_map2; [|assumption].
    apply nth_error_map2; apply nth_error_map2; assumption.
  - intros self cri batch label i row m Hrow Hm.
    unfold AgentTD3.td_error, t1_mul, mean_dim1.
    apply nth_error_map2; [|assumption].
    now apply nth_error_map_some.
  - intros self cri batch label n N Hwf Hl Hn HN Hnet.
    destruct (losses_shape self cri batch label n N Hwf Hl Hnet) as [Hlen Hrows].
    set (L := AgentTD3.losses self cri batch label) in *.
    set (u := Batch.unmask batch).
    assert (Hu : length L = length u).
    { unfold u. destruct Hwf as (_ & _ & _ & _ & Hm & _). lia. }
    assert (Hne : L <> []) by (destruct L; simpl in *; [lia | congruence]).
    pose proof (mean_concat_mul_col L u N HN Hne Hrows Hu) as Hmean.
    unfold AgentTD3.obj_critic_raw, AgentTD3.td_error. fold L u.
    assert (Hc : length (concat (t2_mul_col L u)) = (N * length L)%nat)
      by now apply length_concat_mul_col.
    assert (Ht : length (t1_mul (mean_dim1 L) u) = length L).
    { unfold t1_mul, mean_dim1. rewrite length_map2, length_map. lia. }
    destruct (concat (t2_mul_col L u)) as [|c cs] eqn:Ec; [simpl in Hc; nia|].
    destruct (t1_mul (mean_dim1 L) u) as [|d ds] eqn:Ed; [simpl in Ht; lia|].
    simpl mean_item. eauto.
Qed.

(** The hypotheses of the third part of C3 hold of the example agent. *)
Lemma heads_combined_before_masking_witness :
  Batch.wf 2 Example.batch /\ length [0; 0] = 2%nat /\ (0 < 2)%nat /\
  (forall x, length (CriticTwin.net Example.critic x) = 2%nat) /\
  exists x y,
    AgentTD3.obj_critic_raw (@Example.td3_agent Tape.training) Example.batch [0; 0]
      Example.critic = Fin x /\
    mean_item (AgentTD3.td_error (@Example.td3_agent Tape.training) Example.critic
                 Example.batch [0; 0]) = Fin y /\
    x == y.
Proof.
  assert (Hwf : Batch.wf 2 Example.batch) by (repeat split; reflexivity).
  assert (Hnet : forall x, length (CriticTwin.net Example.critic x) = 2%nat)
    by (intros x; reflexivity).
  split; [exact Hwf|]. split; [reflexivity|]. split; [lia|]. split; [exact Hnet|].
  exact (proj2 (proj2 (@heads_combined_before_masking Tape.training))
           Example.td3_agent Example.critic Example.batch [0; 0] 2%nat 2%nat
           Hwf eq_refl (Nat.lt_0_succ 1) (Nat.lt_0_succ 1) Hnet).
Defined.

(** ** C4: the dueling combination *)

(** C4, as stated, fails: the two example modules have the same advantage
    head, which returns [0] on every input, and on the state [[0]] the
    difference between the values of the two actions is [-1] for one and [-2]
    for the other. *)
Lemma duel_differences_not_from_advantage_head :
  QNetDuel.net_adv Example.duel_a = QNetDuel.net_adv Example.duel_b /\
  exists va vb,
    QNetDuel.forward Example.duel_a [[0]] = [va] /\
    QNetDuel.forward Example.duel_b [[0]] = [vb] /\
    ~ nth 0 va 0 - nth 1 va 0 == nth 0 vb 0 - nth 1 vb 0.
Proof.
  split; [reflexivity|].
  eexists; eexists. split; [vm_compute; reflexivity|]. split; [vm_compute; reflexivity|].
  simpl. intros E. unfold Qeq in E; simpl in E. discriminate.
Qed.


Lemma duel_combination (q_val : tensor2) (q_adv : tensor1) (i : nat) (row : list Q) (adv : Q) :
  nth_error q_val i = Some row -> nth_error q_adv i = Some adv ->
  exists value,
    nth_error (t2_add_col (t2_sub_col q_val (mean_dim1 q_val)) q_adv) i = Some value /\
    dueling_row row adv value.
Proof.
  intros Hrow Hadv.
  exists (map (fun v => v + adv) (map (fun v => v - mean_row row) row)). split.
  - unfold t2_add_col, t2_sub_col, mean_dim1.
    apply (nth_error_map2 (fun row x => map (fun v => v + x) row)); [|assumption].
    apply (nth_error_map2 (fun row x => map (fun v => v - x) row)); [assumption|].
    now apply nth_error_map_some.
  - assert (Hentry : forall a x, nth_error row a = Some x ->
      nth_error (map (fun v => v + adv) (map (fun v => v - mean_row row) row)) a
      = Some (x - mean_row row + adv)).
    { intros a x Hx. now rewrite !nth_error_map, Hx. }
    split; [|split].
    + now rewrite !length_map.
    + intros a x Hx. eexists; split; [apply Hentry, Hx|]. ring.
    + intros a b xa xb va vb Ha Hb Hva Hvb.
      rewrite (Hentry a xa Ha) in Hva. rewrite (Hentry b xb Hb) in Hvb.
      injection Hva as <-. injection Hvb as <-. ring.
Qed.

(** C4, amended.  In every row of [QNetDuel.forward] and of each of the two
    outputs of [QNetTwinDuel.get_q1_q2], the difference between the values of
    two actions is the difference between the outputs of the per-action head
    [net_val] (the "value head"); the scalar head [net_adv] (the "advantage
    head") contributes the same offset to every action of the row. *)
Theorem dueling_differences_from_value_head :
  (forall (self : QNetDuel.t) (state : tensor2) (i : nat) (q_val_i : list Q) (q_adv_i : Q),
     let s_enc := map (QNetDuel.net_state self)
                      (QNetBase.state_norm (QNetDuel.base self) state) in
     nth_error (map (QNetDuel.net_val self) s_enc) i = Some q_val_i ->
     nth_error (col (map (QNetDuel.net_adv self) s_enc)) i = Some q_adv_i ->
     exists value,
       nth_error (QNetDuel.forward self state) i = Some value /\
       dueling_row q_val_i q_adv_i value) /\
  (forall (self : QNetTwinDuel.t) (state : tensor2) (i : nat)
          (q_val1_i q_val2_i : list Q) (q_adv1_i q_adv2_i : Q),
     let s_enc := map (QNetTwinDuel.net_state self)
                      (QNetBase.state_norm (QNetTwinDuel.base self) state) in
     nth_error (map (QNetTwinDuel.net_val1 self) s_enc) i = Some q_val1_i ->
     nth_error (col (map (QNetTwinDuel.net_adv1 self) s_enc)) i = Some q_adv1_i ->
     nth_error (map (QNetTwinDuel.net_val2 self) s_enc) i = Some q_val2_i ->
     nth_error (col (map (QNetTwinDuel.net_adv2 self) s_enc)) i = Some q_adv2_i ->
     exists value1 value2,
       nth_error (fst (QNetTwinDuel.get_q1_q2 self state)) i = Some value1 /\
       nth_error (snd (QNetTwinDuel.get_q1_q2 self state)) i = Some value2 /\
       dueling_row q_val1_i q_adv1_i value1 /\
       dueling_row q_val2_i q_adv2_i value2).
Proof.
  split.
  - intros self state i q_val_i q_adv_i s_enc Hval Hadv.
    unfold QNetDuel.forward. fold s_enc. now apply duel_combination.
  - intros self state i v1 v2 a1 a2 s_enc Hv1 Ha1 Hv2 Ha2.
    unfold QNetTwinDuel.get_q1_q2. fold s_enc. simpl.
    destruct (duel_combination _ _ i v1 a1 Hv1 Ha1) as (value1 & E1 & D1).
    destruct (duel_combination _ _ i v2 a2 Hv2 Ha2) as (value2 & E2 & D2).
    eauto 8.
Qed.

(** The hypotheses of C4 hold of the example modules on a state of one row. *)
Lemma dueling_differences_from_value_head_witness :
  (exists value,
     nth_error (QNetDuel.forward Example.duel_b [[5]]) 0 = Some value /\
     dueling_row [0; 2] 0 value) /\
  (exists value1 value2,
     nth_error (fst (QNetTwinDuel.get_q1_q2 Example.twin_duel [[5]])) 0 = Some value1 /\
     nth_error (snd (QNetTwinDuel.get_q1_q2 Example.twin_duel [[5]])) 0 = Some value2 /\
     dueling_row [0; 1] ((5 - 0) / 1) value1 /\
     dueling_row [(5 - 0) / 1; 2] 3 value2).
Proof.
  split.
  - exact (proj1 dueling_differences_from_value_head
             Example.duel_b [[5]] 0%nat [0; 2] 0 eq_refl eq_refl).
  - exact (proj2 dueling_differences_from_value_head
             Example.twin_duel [[5]] 0%nat [0; 1] [(5 - 0) / 1; 2] ((5 - 0) / 1) 3
             eq_refl eq_refl eq_refl eq_refl).
Defined.

(** ** C5: the mean of the critic ensemble *)

(** [CriticTwin.forward] is the mean of [get_q_values] at the normalized
    state: [get_q_values] normalizes the state a second time. *)
Lemma critic_forward_unfold (cri : CriticTwin.t) (state action : tensor2) :
  CriticTwin.forward cri state action
  = mean_dim1 (CriticTwin.get_q_values cri
                 (ModuleBase.state_norm (CriticTwin.base cri) state) action).
Proof. reflexivity. Qed.

(** A row of identical entries: its minimum and its mean are that entry. *)
Lemma identical_heads_min_mean (v : Q) (N : nat) :
  (0 < N)%nat -> min_row (repeat v N) = v /\ mean_row (repeat v N) == v.
Proof.
  intros HN. split.
  - assert (Hin : In (min_row (repeat v N)) (repeat v N)).
    { apply min_row_in. destruct N; simpl; [lia | congruence]. }
    now apply repeat_spec in Hin.
  - unfold mean_row. rewrite repeat_length.
    assert (Hs : t_sum (repeat v N) == v * inject_Z (Z.of_nat N)).
    { clear HN. induction N as [|N IH].
      - simpl. ring.
      - rewrite Nat2Z.inj_succ. unfold Z.succ. rewrite inject_Z_plus.
        simpl repeat. simpl t_sum. rewrite IH. ring. }
    rewrite Hs. field. intros E. unfold Qeq in E; simpl in E. lia.
Qed.

(** C5, on the code: with the statistics [state_avg = [1]], [state_std = [1]]
    and two identical heads, [get_q_values] on the state [[2]] gives the row
    [1; 1], whose mean and minimum are [1], and [forward] gives [0]. *)
Theorem critic_forward_normalizes_twice :
  CriticTwin.get_q_values Example.critic_shifted [[2]] [[0]] = [[1; 1]] /\
  Forall2 Qeq (mean_dim1 (CriticTwin.get_q_values Example.critic_shifted [[2]] [[0]])) [1] /\
  min_dim1 (CriticTwin.get_q_values Example.critic_shifted [[2]] [[0]]) = [1] /\
  Forall2 Qeq (CriticTwin.forward Example.critic_shifted [[2]] [[0]]) [0] /\
  ~ Forall2 Qeq (CriticTwin.forward Example.critic_shifted [[2]] [[0]])
                (mean_dim1 (CriticTwin.get_q_values Example.critic_shifted [[2]] [[0]])).
Proof.
  split; [vm_compute; reflexivity|].
  split; [vm_compute; repeat constructor|].
  split; [vm_compute; reflexivity|].
  split; [vm_compute; repeat constructor|].
  intros Hf. vm_compute in Hf.
  inversion Hf as [|x y l l' Hxy Hrest]; subst.
  unfold Qeq in Hxy; simpl in Hxy. discriminate.
Qed.

Lemma Qnorm_default (x : Q) : (x - 0) / 1 = x.
Proof.
  destruct x as [n d]. unfold Qdiv, Qminus, Qplus, Qmult, Qinv, Qopp; simpl.
  rewrite !Z.mul_1_r, Z.add_0_r, !Pos.mul_1_r. reflexivity.
Qed.

Lemma state_norm_default (d a : nat) (state : tensor2) :
  Forall (fun row => length row = d) state ->
  ModuleBase.state_norm (ModuleBase.init d a) state = state.
Proof.
  unfold ModuleBase.state_norm; simpl. intros Hrows.
  induction Hrows as [|row rows Hrow Hrows IH]; simpl; [reflexivity|].
  rewrite IH. f_equal. clear IH Hrows. revert d Hrow.
  induction row as [|x row IHrow]; intros [|d] Hd; simpl in *; try discriminate;
    [reflexivity|].
  rewrite Qnorm_default. f_equal. apply IHrow. lia.
Qed.

(** With the statistics the constructor sets (zeros and ones), the second
    normalization changes nothing and [forward] is the mean over the
    ensemble of [get_q_values]. *)
Lemma critic_forward_mean_default_stats (cri : CriticTwin.t) (d a : nat)
    (state action : tensor2) :
  CriticTwin.base cri = ModuleBase.init d a ->
  Forall (fun row => length row = d) state ->
  CriticTwin.forward cri state action
  = mean_dim1 (CriticTwin.get_q_values cri state action).
Proof.
  intros Hb Hrows. rewrite critic_forward_unfold, Hb.
  now rewrite state_norm_default.
Qed.

(** ** C6: the delayed update of the actor *)

Section DelayedUpdate.
Context `{Torch} `{Training} `{ReplayBuffer}.









End DelayedUpdate.


Section DelayedUpdateSteps.
Context `{Torch} `{Training} `{ReplayBuffer}.



End DelayedUpdateSteps.


Lemma Qltb_lt (a b : Q) : Qltb a b = true <-> a < b.
Proof.
  unfold Qltb. rewrite negb_true_iff. split.
  - intros Hb. apply Qnot_le_lt. intros Hle.
    apply Qle_bool_iff in Hle. congruence.
  - intros Hlt. destruct (Qle_bool b a) eqn:E; [|reflexivity].
    apply Qle_bool_iff in E. exfalso. exact (Qlt_not_le _ _ Hlt E).
Qed.

(** ** The index of the first maximal entry *)

Lemma argmax_from_spec (xs : list Q) (best : Q) (best_i i : nat) :
  (argmax_from best best_i i xs = best_i /\ forall y, In y xs -> y <= best) \/
  (exists k m,
     argmax_from best best_i i xs = (i + k)%nat /\ nth_error xs k = Some m /\
     best < m /\
     (forall y, In y xs -> y <= m) /\
     (forall j y, (j < k)%nat -> nth_error xs j = Some y -> y < m)).
Proof.
  revert best best_i i; induction xs as [|x xs IH]; intros best best_i i; simpl.
  - left. split; [reflexivity | tauto].
  - destruct (Qltb best x) eqn:E.
    + apply Qltb_lt in E. right.
      destruct (IH x i (S i)) as [[Ha Hall] | (k & m & Ha & Hk & Hlt & Hall & Hbefore)].
      * exists 0%nat, x. rewrite Ha. repeat split; auto with arith.
        -- intros y [<- | Hy]; [apply Qle_refl | auto].
        -- intros j y Hj. lia.
      * exists (S k), m. rewrite Ha. split; [lia|]. split; [exact Hk|].
        split; [eapply Qlt_trans; eassumption|]. split.
        -- intros y [<- | Hy]; [apply Qlt_le_weak, Hlt | auto].
        -- intros [|j] y Hj Hy; simpl in Hy.
           ++ injection Hy as <-. exact Hlt.
           ++ apply (Hbefore j y); [lia | exact Hy].
    + assert (Hle : x <= best).
      { destruct (Qlt_le_dec best x) as [Hlt | Hle]; [|exact Hle].
        apply Qltb_lt in Hlt. congruence. }
      destruct (IH best best_i (S i)) as [[Ha Hall] | (k & m & Ha & Hk & Hlt & Hall & Hbefore)].
      * left. split; [exact Ha|]. intros y [<- | Hy]; auto.
      * right. exists (S k), m. rewrite Ha. split; [lia|]. split; [exact Hk|].
        split; [exact Hlt|]. split.
        -- intros y [<- | Hy]; [|auto].
           apply Qlt_le_weak. eapply Qle_lt_trans; eassumption.
        -- intros [|j] y Hj Hy; simpl in Hy.
           ++ injection Hy as <-. eapply Qle_lt_trans; eassumption.
           ++ apply (Hbefore j y); [lia | exact Hy].
Qed.

(** [argmax_row] is the index of a greatest entry of the row, and of the
    first of them. *)
Lemma argmax_row_spec (row : list Q) :
  row <> [] ->
  exists m,
    nth_error row (argmax_row row) = Some m /\
    (forall y, In y row -> y <= m) /\
    (forall j y, (j < argmax_row row)%nat -> nth_error row j = Some y -> y < m).
Proof.
  destruct row as [|x xs]; [congruence|]. intros _. simpl argmax_row.
  destruct (argmax_from_spec xs x 0 1) as [[Ha Hall] | (k & m & Ha & Hk & Hlt & Hall & Hbefore)].
  - exists x. rewrite Ha. split; [reflexivity|]. split.
    + intros y [<- | Hy]; [apply Qle_refl | auto].
    + intros j y Hj. lia.
  - exists m. rewrite Ha. split; [exact Hk|]. split.
    + intros y [<- | Hy]; [apply Qlt_le_weak, Hlt | auto].
    + intros [|j] y Hj Hy; simpl in Hy.
      * injection Hy as <-. exact Hlt.
      * apply (Hbefore j y); [lia | exact Hy].
Qed.

(** ** C7: epsilon-greedy on a batch *)

(** C7, as stated, fails: on a batch of two rows with [explore_rate = 1/4]
    and the draws [9/10, 1/10, 0], the method makes one draw, [9/10], and
    returns the greedy action [1] for both rows; a choice made row by row
    would be greedy on the first row and random on the second. *)
Lemma epsilon_greedy_not_per_row :
  fst (@QNetwork.get_action Tape.torch Example.plain [[0]; [0]] (1 # 4) [9 # 10; 1 # 10; 0])
    = [1%nat; 1%nat] /\
  fst (@Reading.get_action_per_row Tape.torch Example.plain [[0]; [0]] (1 # 4)
         [9 # 10; 1 # 10; 0])
    = [1%nat; 0%nat] /\
  fst (@QNetwork.get_action Tape.torch Example.plain [[0]; [0]] (1 # 4) [9 # 10; 1 # 10; 0])
    <> fst (@Reading.get_action_per_row Tape.torch Example.plain [[0]; [0]] (1 # 4)
              [9 # 10; 1 # 10; 0]).
Proof.
  split; [vm_compute; reflexivity|]. split; [vm_compute; reflexivity|].
  vm_compute. discriminate.
Qed.

(** C7, amended.  [QNetwork.get_action] makes one uniform draw for the whole
    batch.  When the draw exceeds [explore_rate], every row gets the argmax of
    its own row of Q-values; otherwise the whole batch gets the random
    actions of one [randint] call, one for each row. *)
Theorem epsilon_greedy_one_draw_per_batch `{Torch} (self : QNetwork.t) (state : tensor2)
    (explore_rate : Q) (g : Rng) :
  let u := fst (rand g) in
  let g1 := snd (rand g) in
  let result := QNetwork.get_action self state explore_rate g in
  (explore_rate < u ->
     snd result = g1 /\
     length (fst result) = length state /\
     forall i q, nth_error (QNetwork.forward self state) i = Some q ->
                 nth_error (fst result) i = Some (argmax_row q)) /\
  (~ explore_rate < u ->
     result = randint (QNetBase.action_dim (QNetwork.base self)) (length state) g1 /\
     length (fst result) = length state).
Proof.
  intros u g1 result. unfold result, QNetwork.get_action, u, g1.
  destruct (rand g) as [u0 g0]; simpl fst; simpl snd.
  rewrite state_norm_length.
  destruct (Qltb explore_rate u0) eqn:E.
  - split; [|intros Hn; exfalso; apply Hn; now apply Qltb_lt].
    intros _. simpl. split; [reflexivity|]. split.
    + unfold argmax_dim1. now rewrite !length_map, state_norm_length.
    + intros i q Hq. unfold argmax_dim1, QNetwork.forward in *.
      now apply nth_error_map_some.
  - split; [intros Hlt; apply Qltb_lt in Hlt; congruence|].
    intros _. split; [reflexivity|]. apply randint_length.
Qed.

(** The two cases of C7 on the tape: the draw [9/10] exceeds [1/4], the draw
    [1/10] does not. *)
Lemma epsilon_greedy_one_draw_per_batch_witness :
  (1 # 4 < 9 # 10 /\
   forall i q,
     nth_error (QNetwork.forward Example.plain [[0]; [0]]) i = Some q ->
     nth_error (fst (@QNetwork.get_action Tape.torch Example.plain [[0]; [0]] (1 # 4)
                       [9 # 10; 1 # 10; 0])) i = Some (argmax_row q)) /\
  (~ 1 # 4 < 1 # 10 /\
   @QNetwork.get_action Tape.torch Example.plain [[0]; [0]] (1 # 4) [1 # 10; 0; 9 # 10]
   = @randint Tape.torch 2 2 [0; 9 # 10]).
Proof.
  assert (H1 : 1 # 4 < 9 # 10) by reflexivity.
  assert (H2 : ~ 1 # 4 < 1 # 10) by (intros Hlt; discriminate Hlt).
  split; split; try assumption.
  - exact (proj2 (proj2 (proj1 (@epsilon_greedy_one_draw_per_batch Tape.torch Example.plain
             [[0]; [0]] (1 # 4) [9 # 10; 1 # 10; 0]) H1))).
  - exact (proj1 (proj2 (@epsilon_greedy_one_draw_per_batch Tape.torch Example.plain
             [[0]; [0]] (1 # 4) [1 # 10; 0; 9 # 10]) H2)).
Defined.

(** ** C8: the twin target is below each single-estimator target *)

Lemma td_target_le (reward undone : tensor1) (gamma : Q) (next_q next_q' : tensor1) :
  0 <= gamma -> Forall (fun u => 0 <= u) undone ->
  Forall2 Qle next_q next_q' ->
  Forall2 Qle (td_target reward undone gamma next_q) (td_target reward undone gamma next_q').
Proof.
  intros Hg Hu Hq. unfold td_target, t1_add, t1_mul, t1_scale.
  revert reward undone Hu.
  induction Hq as [|q q' qs qs' Hle Hq IH]; intros reward undone Hu.
  - destruct reward, undone; simpl; constructor.
  - destruct reward as [|r reward]; [constructor|].
    destruct undone as [|u undone]; [constructor|].
    inversion Hu as [|? ? Hu0 Hus]; subst. simpl. constructor.
    + assert (0 <= u * gamma) by (apply Qmult_le_0_compat; assumption).
      nra.
    + apply IH, Hus.
Qed.

Lemma max_min_le_rows (q1 q2 : tensor2) :
  length q1 = length q2 ->
  Forall (fun row => row <> []) q1 -> Forall (fun row => row <> []) q2 ->
  Forall2 Qle (max_dim1 (t2_min q1 q2)) (max_dim1 q1) /\
  Forall2 Qle (max_dim1 (t2_min q1 q2)) (max_dim1 q2).
Proof.
  unfold max_dim1, t2_min. intros Hlen H1; revert q2 Hlen.
  induction H1 as [|r1 q1 Hr1 H1 IH]; intros [|r2 q2] Hlen H2; simpl in *;
    try discriminate; [split; constructor|].
  inversion H2 as [|? ? Hr2 H2']; subst.
  destruct (IH q2) as [Ha Hb]; [lia | assumption |].
  destruct (max_row_min_spec r1 r2 Hr1 Hr2) as (_ & Hle1 & Hle2).
  split; constructor; assumption.
Qed.

Lemma min_row_le_head (row : list Q) (h : nat) :
  (h < length row)%nat -> min_row row <= nth h row 0.
Proof. intros Hh. apply min_row_le, nth_In, Hh. Qed.

Lemma undone_nonneg (undone : tensor1) :
  Forall (fun u => u == 0 \/ u == 1) undone -> Forall (fun u => 0 <= u) undone.
Proof.
  intros Hu. eapply Forall_impl; [|exact Hu]. intros u [E | E]; rewrite E; discriminate.
Qed.

(** C8.  On one batch, with [gamma] in [0, 1] and [undone] in {0, 1}: for
    Double DQN and D3QN the target built on the maximum of the entrywise
    minimum of the two estimates is, row by row, at most the target built on
    the maximum of the first estimate alone, and at most the one built on the
    second; for TD3 the target built on the minimum over the ensemble is at
    most the target built on any one head. *)
Theorem twin_target_below_single_targets `{Torch} `{Training}
    (n : nat) (batch : Batch.t) (gamma : Q) :
  Batch.wf n batch -> 0 <= gamma <= 1 ->
  Forall (fun u => u == 0 \/ u == 1) (Batch.undone batch) ->
  (forall (v : Variant.t) (self : AgentDQN.t) (q1 q2 : tensor2),
     v = Variant.DoubleDQN \/ v = Variant.D3QN ->
     AgentBase.gamma (AgentDQN.base self) = gamma ->
     QModule.get_q1_q2 (AgentDQN.cri_target self) (Batch.next_state batch) = Ok (q1, q2) ->
     Forall (fun row => row <> []) q1 -> Forall (fun row => row <> []) q2 ->
     exists label,
       Variant.q_label v self batch = Ok label /\
       length label = n /\
       Forall2 Qle label
         (td_target (Batch.reward batch) (Batch.undone batch) gamma (max_dim1 q1)) /\
       Forall2 Qle label
         (td_target (Batch.reward batch) (Batch.undone batch) gamma (max_dim1 q2))) /\
  (forall (self : AgentTD3.t) (next_action : tensor2) (h : nat),
     AgentBase.gamma (AgentTD3.base self) = gamma ->
     length next_action = n ->
     let values :=
       CriticTwin.get_q_values (AgentTD3.cri_target self) (Batch.next_state batch)
         next_action in
     Forall (fun row => (h < length row)%nat) values ->
     length (AgentTD3.q_label self batch next_action) = n /\
     Forall2 Qle (AgentTD3.q_label self batch next_action)
       (td_target (Batch.reward batch) (Batch.undone batch) gamma
          (map (fun row => nth h row 0) values))).
Proof.
  intros (Hs & Ha & Hr & Hu & Hm & Hn) [Hg _] Hund.
  pose proof (undone_nonneg _ Hund) as Hpos.
  split.
  - intros v self q1 q2 Hv Hgam Hq Hne1 Hne2.
    destruct (get_q1_q2_length _ _ _ _ Hq) as [Hl1 Hl2].
    destruct (max_min_le_rows q1 q2) as [Hle1 Hle2]; [lia | assumption | assumption |].
    exists (td_target (Batch.reward batch) (Batch.undone batch) gamma
              (max_dim1 (t2_min q1 q2))).
    split; [|split; [|split]].
    + destruct Hv as [-> | ->]; simpl;
        unfold AgentDoubleDQN.q_label, AgentDoubleDQN.next_q; now rewrite Hq, Hgam.
    + destruct (td_target_regression (Batch.reward batch) (Batch.undone batch) gamma
                  (max_dim1 (t2_min q1 q2))) as [Hlen _].
      rewrite Hlen. unfold max_dim1, t2_min. rewrite length_map, length_map2. lia.
    + now apply td_target_le.
    + now apply td_target_le.
  - intros self next_action h Hgam Hna values Hh.
    unfold AgentTD3.q_label, AgentTD3.next_q. fold values. rewrite Hgam. split.
    + destruct (td_target_regression (Batch.reward batch) (Batch.undone batch) gamma
                  (min_dim1 values)) as [Hlen _].
      rewrite Hlen. unfold min_dim1, values.
      rewrite length_map, get_q_values_length. lia.
    + apply td_target_le; try assumption.
      unfold min_dim1. clear -Hh. induction Hh as [|row rows Hrow Hrows IH]; simpl;
        constructor; [now apply min_row_le_head | exact IH].
Qed.

(** The hypotheses of C8 hold of the example batch and agents. *)
Lemma twin_target_below_single_targets_witness :
  Batch.wf 2 Example.batch /\ 0 <= 99 # 100 <= 1 /\
  Forall (fun u => u == 0 \/ u == 1) (Batch.undone Example.batch) /\
  (exists label,
     Variant.q_label Variant.DoubleDQN (@Example.double_agent Tape.training) Example.batch
       = Ok label /\
     length label = 2%nat /\
     Forall2 Qle label
       (td_target (Batch.reward Example.batch) (Batch.undone Example.batch) (99 # 100)
          (max_dim1 [[1; 0]; [1; 0]])) /\
     Forall2 Qle label
       (td_target (Batch.reward Example.batch) (Batch.undone Example.batch) (99 # 100)
          (max_dim1 [[0; 1]; [0; 1]]))) /\
  Forall2 Qle
    (AgentTD3.q_label (@Example.td3_agent Tape.training) Example.batch [[0]; [0]])
    (td_target (Batch.reward Example.batch) (Batch.undone Example.batch) (99 # 100)
       (map (fun row => nth 1 row 0)
          (CriticTwin.get_q_values
             (AgentTD3.cri_target (@Example.td3_agent Tape.training))
             (Batch.next_state Example.batch) [[0]; [0]]))).
Proof.
  assert (Hwf : Batch.wf 2 Example.batch) by (repeat split; reflexivity).
  assert (Hg : 0 <= 99 # 100 <= 1) by (split; discriminate).
  assert (Hu : Forall (fun u => u == 0 \/ u == 1) (Batch.undone Example.batch)).
  { constructor; [left; reflexivity|].
    constructor; [right; reflexivity | constructor]. }
  pose proof (@twin_target_below_single_targets Tape.torch Tape.training 2 Example.batch
                (99 # 100) Hwf Hg Hu) as [Hdouble Htd3].
  split; [exact Hwf|]. split; [exact Hg|]. split; [exact Hu|]. split.
  - apply (Hdouble Variant.DoubleDQN Example.double_agent [[1; 0]; [1; 0]] [[0; 1]; [0; 1]]
             (or_introl eq_refl) eq_refl eq_refl);
      repeat constructor; discriminate.
  - apply (Htd3 Example.td3_agent [[0]; [0]] 1%nat eq_refl eq_refl).
    repeat constructor.
Defined.

(** ** C9: a non-integer [update_t] *)

(** C9.  When [update_t] is not an [int], every update method of every
    variant, raw or prioritized, raises [AssertionError] and leaves the agent,
    the buffer and the random source as they were before the call. *)
Theorem non_integer_update_t_rejected `{Torch} `{Training} `{ReplayBuffer} (update_t : obj) :
  isinstance_int update_t = false ->
  (forall (v : Variant.t) (self : AgentDQN.t) (buffer : Buffer) (batch_size : nat),
     Variant._update_objectives_raw v self buffer batch_size update_t
     = (Raise AssertionError, (self, buffer)) /\
     Variant._update_objectives_per v self buffer batch_size update_t
     = (Raise AssertionError, (self, buffer))) /\
  (forall (self : AgentTD3.t) (buffer : Buffer) (g : Rng) (batch_size : nat),
     AgentTD3._update_objectives_raw self buffer g batch_size update_t
     = (Raise AssertionError, (self, buffer, g)) /\
     AgentTD3._update_objectives_per self buffer g batch_size update_t
     = (Raise AssertionError, (self, buffer, g))).
Proof.
  intros Hint. split.
  - intros [ | | | ] self buffer batch_size; simpl;
      unfold AgentDQN._update_objectives_raw, AgentDQN._update_objectives_per,
             AgentDoubleDQN._update_objectives_raw, AgentDoubleDQN._update_objectives_per;
      rewrite Hint; split; reflexivity.
  - intros self buffer g batch_size.
    unfold AgentTD3._update_objectives_raw, AgentTD3._update_objectives_per.
    rewrite Hint. split; reflexivity.
Qed.

(** The float [2.0] is not an [int]: the calls on the example agents raise. *)
Lemma non_integer_update_t_rejected_witness :
  isinstance_int (Float 2) = false /\
  @Variant._update_objectives_raw Tape.training Tape.buffer Variant.D3QN
    Example.double_agent Example.stored 4 (Float 2)
  = (Raise AssertionError, (Example.double_agent, Example.stored)) /\
  @AgentTD3._update_objectives_per Tape.torch Tape.training Tape.buffer
    Example.td3_agent Example.stored [] 4 (Float 2)
  = (Raise AssertionError, (Example.td3_agent, Example.stored, [])).
Proof.
  pose proof (@non_integer_update_t_rejected Tape.torch Tape.training Tape.buffer
                (Float 2) eq_refl) as [Hdqn Htd3].
  split; [reflexivity|]. split.
  - exact (proj1 (Hdqn Variant.D3QN Example.double_agent Example.stored 4%nat)).
  - exact (proj2 (Htd3 Example.td3_agent Example.stored [] 4%nat)).
Defined.

(** ** C10: the exploration helpers of the subclasses *)


Section ExplorationHelpers.
Context `{Torch} `{MlpFactory} `{Training}.



(** On an agent as the constructors build it, the update methods of
    [AgentDoubleDQN] stop at [self.cri_target.get_q1_q2]: a [QNetwork] has no
    such method. *)
Lemma constructed_double_update_raises `{ReplayBuffer} (v : Variant.t) (base : AgentBase.t)
    (net_dims : list nat) (state_dim action_dim : nat) (args : Config.t)
    (buffer : Buffer) (batch_size : nat) (update_t : obj) :
  v = Variant.DoubleDQN \/ v = Variant.D3QN ->
  isinstance_int update_t = true ->
  let self := Variant.init v base net_dims state_dim action_dim args in
  fst (Variant._update_objectives_raw v self buffer batch_size update_t)
  = Raise (AttributeError "get_q1_q2") /\
  fst (Variant._update_objectives_per v self buffer batch_size update_t)
  = Raise (AttributeError "get_q1_q2").
Proof.
  intros Hv Hint self.
  destruct Hv as [-> | ->]; simpl;
    unfold AgentDoubleDQN._update_objectives_raw, AgentDoubleDQN._update_objectives_per;
    rewrite Hint;
    destruct (sample buffer batch_size) as [batch buffer1];
    destruct (sample_for_per buffer batch_size) as [per buffer2];
    split; reflexivity.
Qed.


End ExplorationHelpers.

(** * Further properties of the code *)

(** ** [AgentDQN.get_cumulative_rewards] *)

Section CumulativeRewards.
Context `{Training}.

(** The returns of the steps from the first of [rows] on, each row computed
    from the row after it, the last one from [next_value]. *)
Fixpoint returns_from (rows : list (tensor1 * tensor1)) (next_value : tensor1) : tensor2 :=
  match rows with
  | [] => []
  | (reward, mask) :: rest =>
      let tail := returns_from rest next_value in
      t1_add reward (t1_mul mask (hd next_value tail)) :: tail
  end.

Lemma backward_rev (rows k : list (tensor1 * tensor1)) (next_value : tensor1) :
  Rollout.backward (rev rows ++ k) next_value []
  = Rollout.backward k (hd next_value (returns_from rows next_value))
      (returns_from rows next_value).
Proof.
  revert k; induction rows as [|[reward mask] rows IH]; intros k; simpl; [reflexivity|].
  rewrite <- app_assoc. simpl. rewrite IH. reflexivity.
Qed.

Lemma get_cumulative_rewards_returns_from (self : AgentDQN.t) (last_state rewards undones : tensor2) :
  Rollout.get_cumulative_rewards self last_state rewards undones
  = returns_from
      (combine rewards
         (map (fun row => t1_scale row (AgentBase.gamma (AgentDQN.base self))) undones))
      (Rollout.last_value self last_state).
Proof.
  unfold Rollout.get_cumulative_rewards.
  rewrite <- (app_nil_r (rev _)). now rewrite backward_rev.
Qed.


Lemma hd_nth {A : Type} (d : A) (l : list A) : hd d l = nth 0 l d.
Proof. destruct l; reflexivity. Qed.

Lemma returns_from_nth (rows : list (tensor1 * tensor1)) (next_value : tensor1)
    (t : nat) (reward mask : tensor1) :
  nth_error rows t = Some (reward, mask) ->
  nth_error (returns_from rows next_value) t
  = Some (t1_add reward
            (t1_mul mask (nth (S t) (returns_from rows next_value) next_value))).
Proof.
  revert t; induction rows as [|[r m] rows IH]; intros [|t] Ht; simpl in *; try discriminate.
  - injection Ht as -> ->. now rewrite hd_nth.
  - now apply IH.
Qed.

Lemma nth_error_combine_some {A B : Type} (xs : list A) (ys : list B) (t : nat) (x : A) (y : B) :
  nth_error xs t = Some x -> nth_error ys t = Some y ->
  nth_error (combine xs ys) t = Some (x, y).
Proof.
  revert ys t; induction xs as [|x0 xs IH]; intros [|y0 ys] [|t]; simpl; try discriminate.
  - congruence.
  - auto.
Qed.


Lemma target_terminal (reward undone next : tensor1) (gamma : Q) :
  length undone = length reward -> length next = length reward ->
  Forall (fun z => z == 0) undone ->
  Forall2 Qeq (td_target reward undone gamma next) reward.
Proof.
  unfold td_target, t1_add, t1_mul, t1_scale.
  revert undone next; induction reward as [|r reward IH]; intros [|u undone] [|q next];
    simpl; try discriminate; intros Hu Hn Hz; constructor.
  - inversion Hz as [|? ? Hu0 ?]; subst. rewrite Hu0. ring.
  - inversion Hz; subst. apply IH; auto.
Qed.

Lemma returns_from_width (rows : list (tensor1 * tensor1)) (next_value : tensor1) (N : nat) :
  Forall (fun row => length (fst row) = N /\ length (snd row) = N) rows ->
  length next_value = N ->
  Forall (fun row => length row = N) (returns_from rows next_value).
Proof.
  intros Hrows Hn. induction Hrows as [|[r m] rows [Hr Hm] Hrows IH]; simpl; constructor.
  - unfold t1_add, t1_mul. rewrite !length_map2. simpl in Hr, Hm.
    assert (length (hd next_value (returns_from rows next_value)) = N).
    { destruct IH; simpl; auto. }
    lia.
  - exact IH.
Qed.

(** X2.  When every row of [rewards] and of [undones] has one entry for each
    of the [N] rows of [last_state], every row of the result has [N] entries,
    and at a step where all environments are done ([undones[t] = 0]) the
    returns are the rewards of that step: nothing of the later steps or of
    the last state enters. *)
Theorem cumulative_rewards_terminal (self : AgentDQN.t) (last_state rewards undones : tensor2)
    (N : nat) :
  Forall (fun row => length row = N) rewards ->
  Forall (fun row => length row = N) undones ->
  length last_state = N ->
  let returns := Rollout.get_cumulative_rewards self last_state rewards undones in
  Forall (fun row => length row = N) returns /\
  forall t reward undone,
    nth_error rewards t = Some reward -> nth_error undones t = Some undone ->
    Forall (fun z => z == 0) undone ->
    exists row, nth_error returns t = Some row /\ Forall2 Qeq row reward.
Proof.
  intros Hr Hu Hl returns.
  assert (Hlast : length (Rollout.last_value self last_state) = N).
  { unfold Rollout.last_value, argmax_dim1. now rewrite !length_map, call_length. }
  assert (Hw : Forall (fun row => length row = N) returns).
  { unfold returns. rewrite get_cumulative_rewards_returns_from.
    apply returns_from_width; [|exact Hlast].
    apply Forall_forall. intros [r m] Hin.
    destruct (In_nth_error _ _ Hin) as [t Ht].
    assert (Hrt : nth_error rewards t = Some r).
    { revert Ht. clear. revert undones t.
      induction rewards as [|r0 rw IH]; intros [|u0 us] [|t]; simpl; try discriminate.
      - congruence.
      - apply IH. }
    assert (Hmt : In m (map (fun row => t1_scale row (AgentBase.gamma (AgentDQN.base self)))
                          undones)).
    { eapply in_combine_r; exact Hin. }
    apply in_map_iff in Hmt as (u & <- & Hin_u).
    rewrite Forall_forall in Hr, Hu. simpl. split.
    - apply Hr. eapply nth_error_In; exact Hrt.
    - unfold t1_scale. rewrite length_map. now apply Hu. }
  split; [exact Hw|].
  intros t reward undone Hrt Hut Hz.
  assert (Hrec : nth_error returns t
                 = Some (td_target reward undone (AgentBase.gamma (AgentDQN.base self))
                           (nth (S t) returns (Rollout.last_value self last_state)))).
  { unfold returns. rewrite get_cumulative_rewards_returns_from. unfold td_target.
    apply returns_from_nth, nth_error_combine_some; [exact Hrt|].
    exact (nth_error_map_some
             (fun row => t1_scale row (AgentBase.gamma (AgentDQN.base self)))
             undones t undone Hut). }
  eexists; split; [exact Hrec|].
  rewrite Forall_forall in Hr, Hu.
  apply target_terminal; [| |exact Hz].
  - rewrite (Hr reward), (Hu undone); eauto using nth_error_In.
  - rewrite (Hr reward) by eauto using nth_error_In.
    destruct (Nat.lt_ge_cases (S t) (length returns)) as [Hlt | Hge].
    + rewrite Forall_forall in Hw. apply Hw, nth_In, Hlt.
    + rewrite nth_overflow by exact Hge. exact Hlast.
Qed.

End CumulativeRewards.

(** The hypotheses of X2 hold for a horizon of two steps on two
    environments, the second step terminal. *)
Lemma cumulative_rewards_terminal_witness :
  let rewards := [[1; 2]; [3; 4]] in
  let undones := [[1; 1]; [0; 0]] in
  Forall (fun row => length row = 2%nat) rewards /\
  Forall (fun row => length row = 2%nat) undones /\
  length [[0]; [0]] = 2%nat /\
  Forall (fun z => z == 0) [0; 0] /\
  exists row,
    nth_error (@Rollout.get_cumulative_rewards Tape.training Example.double_agent
                 [[0]; [0]] rewards undones) 1 = Some row /\
    Forall2 Qeq row [3; 4].
Proof.
  intros rewards undones.
  assert (Hr : Forall (fun row => length row = 2%nat) rewards) by (repeat constructor).
  assert (Hu : Forall (fun row => length row = 2%nat) undones) by (repeat constructor).
  assert (Hz : Forall (fun z => z == 0) [0; 0]) by (repeat constructor).
  split; [exact Hr|]. split; [exact Hu|]. split; [reflexivity|]. split; [exact Hz|].
  exact (proj2 (@cumulative_rewards_terminal Tape.training Example.double_agent
                  [[0]; [0]] rewards undones 2%nat Hr Hu eq_refl)
           1%nat [3; 4] [0; 0] eq_refl eq_refl Hz).
Defined.


(** ** [QNetBase.state_norm] *)

Lemma norm_row_round_trip (row avg std : list Q) :
  length row = length avg -> length std = length avg ->
  Forall (fun s => ~ s == 0) std ->
  Forall2 Qeq
    (map2 Qplus (map2 Qmult (map2 Qdiv (map2 Qminus row avg) std) std) avg) row.
Proof.
  revert avg std; induction row as [|x row IH]; intros [|a avg] [|s std]; simpl;
    try discriminate; intros Hr Hs Hnz; constructor.
  - inversion Hnz; subst. field. assumption.
  - inversion Hnz; subst. apply IH; auto.
Qed.

(** X3.  When no entry of [state_std] is zero and the rows have one entry for
    each statistic, [state_norm] keeps the shape of the batch and is undone
    by [x * state_std + state_avg]: no two states are normalized to the same
    row. *)
Theorem state_norm_round_trip (self : QNetBase.t) (state : tensor2) :
  length (QNetBase.state_std self) = length (QNetBase.state_avg self) ->
  Forall (fun s => ~ s == 0) (QNetBase.state_std self) ->
  Forall (fun row => length row = length (QNetBase.state_avg self)) state ->
  Forall2 (fun normed row =>
             length normed = length row /\
             Forall2 Qeq
               (map2 Qplus (map2 Qmult normed (QNetBase.state_std self))
                  (QNetBase.state_avg self))
               row)
          (QNetBase.state_norm self state) state.
Proof.
  intros Hs Hnz Hrows. unfold QNetBase.state_norm.
  induction Hrows as [|row rows Hrow Hrows IH]; simpl; constructor; [|exact IH].
  split.
  - rewrite !length_map2. lia.
  - now apply norm_row_round_trip.
Qed.

(** The hypotheses of X3 hold of the statistics [avg = [1; 2]],
    [std = [2; 4]]. *)
Lemma state_norm_round_trip_witness :
  let self :=
    {| QNetBase.state_dim := 2; QNetBase.action_dim := 2;
       QNetBase.state_avg := [1; 2]; QNetBase.state_std := [2; 4];
       QNetBase.explore_rate := None |} in
  length (QNetBase.state_std self) = length (QNetBase.state_avg self) /\
  Forall (fun s => ~ s == 0) (QNetBase.state_std self) /\
  Forall (fun row => length row = length (QNetBase.state_avg self)) [[3; 4]; [5; 6]] /\
  Forall2 (fun normed row =>
             length normed = length row /\
             Forall2 Qeq
               (map2 Qplus (map2 Qmult normed (QNetBase.state_std self))
                  (QNetBase.state_avg self))
               row)
          (QNetBase.state_norm self [[3; 4]; [5; 6]]) [[3; 4]; [5; 6]].
Proof.
  intros self.
  assert (Hs : length (QNetBase.state_std self) = length (QNetBase.state_avg self))
    by reflexivity.
  assert (Hnz : Forall (fun s => ~ s == 0) (QNetBase.state_std self))
    by (repeat constructor; intros E; discriminate E).
  assert (Hrows : Forall (fun row => length row = length (QNetBase.state_avg self))
                    [[3; 4]; [5; 6]]) by (repeat constructor).
  split; [exact Hs|]. split; [exact Hnz|]. split; [exact Hrows|].
  exact (state_norm_round_trip self [[3; 4]; [5; 6]] Hs Hnz Hrows).
Defined.

(** X4.  A module as its constructor leaves it (statistics zero and one)
    does not change the states it is given, when they have [state_dim]
    entries: [QNetwork.forward] is then the network on the raw states. *)
Theorem fresh_module_keeps_state `{MlpFactory} (net_dims : list nat)
    (state_dim action_dim : nat) (state : tensor2) :
  Forall (fun row => length row = state_dim) state ->
  QNetBase.state_norm (QNetBase.init state_dim action_dim) state = state /\
  let self := QNetwork.init net_dims state_dim action_dim in
  QNetwork.forward self state = map (QNetwork.net self) state.
Proof.
  intros Hrows.
  assert (Hn : QNetBase.state_norm (QNetBase.init state_dim action_dim) state = state).
  { unfold QNetBase.state_norm; simpl.
    induction Hrows as [|row rows Hrow Hrows IH]; simpl; [reflexivity|].
    rewrite IH. f_equal. clear IH Hrows. revert state_dim Hrow.
    induction row as [|x row IHrow]; intros [|d] Hd; simpl in *; try discriminate;
      [reflexivity|].
    rewrite Qnorm_default. f_equal. apply IHrow. lia. }
  split; [exact Hn|].
  intros self. unfold QNetwork.forward, self. simpl QNetwork.base. now rewrite Hn.
Qed.

(** The hypothesis of X4 holds of two states of three entries. *)
Lemma fresh_module_keeps_state_witness :
  Forall (fun row => length row = 3%nat) [[1; 2; 3]; [4; 5; 6]] /\
  QNetBase.state_norm (QNetBase.init 3 2) [[1; 2; 3]; [4; 5; 6]] = [[1; 2; 3]; [4; 5; 6]].
Proof.
  assert (Hrows : Forall (fun row => length row = 3%nat) [[1; 2; 3]; [4; 5; 6]])
    by (repeat constructor).
  split; [exact Hrows|].
  exact (proj1 (@fresh_module_keeps_state Tape.factory [8%nat] 3 2
                  [[1; 2; 3]; [4; 5; 6]] Hrows)).
Defined.

(** ** The dueling modules: mean and greedy action *)

Lemma t_sum_map_add (row : list Q) (c : Q) :
  t_sum (map (fun v => v + c) row) == t_sum row + inject_Z (Z.of_nat (length row)) * c.
Proof.
  induction row as [|v row IH].
  - simpl. ring.
  - simpl length. rewrite Nat2Z.inj_succ. unfold Z.succ. rewrite inject_Z_plus.
    simpl map. simpl t_sum. rewrite IH. ring.
Qed.

Lemma t_sum_map_sub (row : list Q) (c : Q) :
  t_sum (map (fun v => v - c) row) == t_sum row - inject_Z (Z.of_nat (length row)) * c.
Proof.
  induction row as [|v row IH].
  - simpl. ring.
  - simpl length. rewrite Nat2Z.inj_succ. unfold Z.succ. rewrite inject_Z_plus.
    simpl map. simpl t_sum. rewrite IH. ring.
Qed.

Lemma duel_row_mean (row : list Q) (adv : Q) :
  row <> [] ->
  mean_row (map (fun v => v + adv) (map (fun v => v - mean_row row) row)) == adv.
Proof.
  intros Hne. unfold mean_row at 1.
  rewrite t_sum_map_add, t_sum_map_sub, !length_map.
  unfold mean_row.
  assert (Hn : ~ inject_Z (Z.of_nat (length row)) == 0).
  { destruct row; [congruence|]. intros E. unfold Qeq in E; simpl in E. lia. }
  field. exact Hn.
Qed.

Lemma duel_rows (q_val : tensor2) (q_adv : tensor1) (i : nat) (value : list Q) :
  nth_error (t2_add_col (t2_sub_col q_val (mean_dim1 q_val)) q_adv) i = Some value ->
  exists row adv,
    nth_error q_val i = Some row /\ nth_error q_adv i = Some adv /\
    value = map (fun v => v + adv) (map (fun v => v - mean_row row) row).
Proof.
  unfold t2_add_col, t2_sub_col, mean_dim1. intros Hv.
  apply nth_error_map2_inv in Hv as (r1 & adv & Hr1 & Hadv & ->).
  apply nth_error_map2_inv in Hr1 as (row & m & Hrow & Hm & ->).
  rewrite nth_error_map, Hrow in Hm. injection Hm as <-.
  eauto.
Qed.

(** X5.  In every row of [QNetDuel.forward] with at least one action, the
    mean of the values over the actions is the output of the scalar head
    [net_adv] for that row: the per-action head [net_val] enters the output
    only through its deviations from its own mean. *)
Theorem dueling_mean_is_scalar_head (self : QNetDuel.t) (state : tensor2) (i : nat)
    (value : list Q) :
  nth_error (QNetDuel.forward self state) i = Some value -> value <> [] ->
  let s_enc := map (QNetDuel.net_state self)
                   (QNetBase.state_norm (QNetDuel.base self) state) in
  exists adv,
    nth_error (col (map (QNetDuel.net_adv self) s_enc)) i = Some adv /\
    mean_row value == adv.
Proof.
  intros Hv Hne s_enc. unfold QNetDuel.forward in Hv. fold s_enc in Hv.
  apply duel_rows in Hv as (row & adv & Hrow & Hadv & ->).
  exists adv. split; [exact Hadv|].
  apply duel_row_mean. intros ->. now apply Hne.
Qed.

(** X5 on the example module [duel_b], whose scalar head returns [0]. *)
Lemma dueling_mean_is_scalar_head_witness :
  exists value,
    nth_error (QNetDuel.forward Example.duel_b [[5]]) 0 = Some value /\
    value <> [] /\
    exists adv,
      nth_error (col (map (QNetDuel.net_adv Example.duel_b)
                        (map (QNetDuel.net_state Example.duel_b)
                           (QNetBase.state_norm (QNetDuel.base Example.duel_b) [[5]])))) 0
      = Some adv /\
      mean_row value == adv.
Proof.
  eexists. split; [reflexivity|].
  assert (Hne : [0 - (0 + (2 + 0)) / inject_Z (Z.of_nat 2) + 0;
                 2 - (0 + (2 + 0)) / inject_Z (Z.of_nat 2) + 0] <> []) by discriminate.
  split; [exact Hne|].
  exact (dueling_mean_is_scalar_head Example.duel_b [[5]] 0%nat _ eq_refl Hne).
Defined.

Lemma Qltb_add (x y d : Q) : Qltb (x + d) (y + d) = Qltb x y.
Proof.
  apply eq_true_iff_eq. rewrite !Qltb_lt. split; intros Hlt.
  - now apply Qplus_lt_l in Hlt.
  - now apply Qplus_lt_l.
Qed.

Lemma Qltb_sub (x y d : Q) : Qltb (x - d) (y - d) = Qltb x y.
Proof. unfold Qminus. apply Qltb_add. Qed.

Lemma argmax_from_map (f : Q -> Q) (xs : list Q) (best : Q) (best_i i : nat) :
  (forall a b, Qltb (f a) (f b) = Qltb a b) ->
  argmax_from (f best) best_i i (map f xs) = argmax_from best best_i i xs.
Proof.
  intros Hf. revert best best_i i; induction xs as [|x xs IH]; intros best best_i i; simpl;
    [reflexivity|].
  rewrite Hf. destruct (Qltb best x); apply IH.
Qed.

Lemma argmax_row_map (f : Q -> Q) (row : list Q) :
  (forall a b, Qltb (f a) (f b) = Qltb a b) ->
  argmax_row (map f row) = argmax_row row.
Proof.
  intros Hf. destruct row as [|x xs]; simpl; [reflexivity|]. now apply argmax_from_map.
Qed.

(** The greedy actions of a dueling output are those of its per-action
    head. *)
Lemma duel_argmax (q_val : tensor2) (q_adv : tensor1) :
  length q_adv = length q_val ->
  argmax_dim1 (t2_add_col (t2_sub_col q_val (mean_dim1 q_val)) q_adv) = argmax_dim1 q_val.
Proof.
  unfold argmax_dim1, t2_add_col, t2_sub_col, mean_dim1.
  revert q_adv; induction q_val as [|row q_val IH]; intros [|adv q_adv]; simpl;
    try discriminate; intros Hl; [reflexivity|].
  rewrite IH by lia. f_equal.
  rewrite (argmax_row_map (fun v => v + adv)) by (intros; apply Qltb_add).
  apply (argmax_row_map (fun v => v - mean_row row)). intros; apply Qltb_sub.
Qed.

(** X6.  When [explore_rate] has been set on a [QNetDuel] module and the
    draw exceeds it, [get_action] returns for every row the index of the
    first greatest value of [forward] on that row, although it computes the
    argmax of the head [net_val] alone: centring the head and adding the
    scalar head move no argmax. *)
Theorem duel_greedy_action_is_argmax_of_forward `{Torch} (self : QNetDuel.t) (state : tensor2)
    (explore_rate : Q) (g : Rng) :
  QNetBase.explore_rate (QNetDuel.base self) = Some explore_rate ->
  explore_rate < fst (rand g) ->
  QNetDuel.get_action self state g
  = (Ok (argmax_dim1 (QNetDuel.forward self state)), snd (rand g)).
Proof.
  intros He Hlt. unfold QNetDuel.get_action, QNetDuel.forward. rewrite He.
  destruct (rand g) as [u g1]; simpl in *.
  apply Qltb_lt in Hlt. rewrite Hlt.
  rewrite duel_argmax; [reflexivity|]. unfold col. now rewrite !length_map.
Qed.

(** X7.  [QNetTwinDuel.forward] is the first of the two outputs of
    [get_q1_q2], and when [explore_rate] has been set and the draw exceeds
    it, [get_action] returns for every row the argmax of that output, which
    it computes as the argmax of the head [net_val1] alone. *)
Theorem twin_duel_greedy_action_is_argmax_of_forward `{Torch} (self : QNetTwinDuel.t)
    (state : tensor2) (explore_rate : Q) (g : Rng) :
  QNetBase.explore_rate (QNetTwinDuel.base self) = Some explore_rate ->
  explore_rate < fst (rand g) ->
  QNetTwinDuel.forward self state = fst (QNetTwinDuel.get_q1_q2 self state) /\
  QNetTwinDuel.get_action self state g
  = (Ok (argmax_dim1 (fst (QNetTwinDuel.get_q1_q2 self state))), snd (rand g)).
Proof.
  intros He Hlt. split; [reflexivity|].
  unfold QNetTwinDuel.get_action, QNetTwinDuel.get_q1_q2. rewrite He.
  destruct (rand g) as [u g1]; simpl in *.
  apply Qltb_lt in Hlt. rewrite Hlt.
  rewrite duel_argmax; [reflexivity|]. unfold col. now rewrite !length_map.
Qed.

(** X6 on a module with [explore_rate = 1/4], for the draw [9/10]. *)
Lemma duel_greedy_action_is_argmax_of_forward_witness :
  let self :=
    {| QNetDuel.base :=
         {| QNetBase.state_dim := 1; QNetBase.action_dim := 2;
            QNetBase.state_avg := [0]; QNetBase.state_std := [1];
            QNetBase.explore_rate := Some (1 # 4) |};
       QNetDuel.net_state := fun x => x;
       QNetDuel.net_adv := fun x => [hd 0 x];
       QNetDuel.net_val := fun x => [0; hd 0 x] |} in
  QNetBase.explore_rate (QNetDuel.base self) = Some (1 # 4) /\
  1 # 4 < fst (@rand Tape.torch [9 # 10]) /\
  @QNetDuel.get_action Tape.torch self [[5]; [-5]] [9 # 10]
  = (Ok (argmax_dim1 (QNetDuel.forward self [[5]; [-5]])), snd (@rand Tape.torch [9 # 10])).
Proof.
  intros self.
  assert (Hlt : 1 # 4 < fst (@rand Tape.torch [9 # 10])) by reflexivity.
  split; [reflexivity|]. split; [exact Hlt|].
  exact (@duel_greedy_action_is_argmax_of_forward Tape.torch self [[5]; [-5]] (1 # 4)
           [9 # 10] eq_refl Hlt).
Defined.

(** X7 on a module with [explore_rate = 1/4], for the draw [9/10]. *)
Lemma twin_duel_greedy_action_is_argmax_of_forward_witness :
  let self :=
    {| QNetTwinDuel.base :=
         {| QNetBase.state_dim := 1; QNetBase.action_dim := 2;
            QNetBase.state_avg := [0]; QNetBase.state_std := [1];
            QNetBase.explore_rate := Some (1 # 4) |};
       QNetTwinDuel.net_state := fun x => x;
       QNetTwinDuel.net_adv1 := fun x => [hd 0 x];
       QNetTwinDuel.net_val1 := fun x => [0; hd 0 x];
       QNetTwinDuel.net_adv2 := fun _ => [0];
       QNetTwinDuel.net_val2 := fun _ => [1; 0] |} in
  QNetBase.explore_rate (QNetTwinDuel.base self) = Some (1 # 4) /\
  1 # 4 < fst (@rand Tape.torch [9 # 10]) /\
  @QNetTwinDuel.get_action Tape.torch self [[5]; [-5]] [9 # 10]
  = (Ok (argmax_dim1 (fst (QNetTwinDuel.get_q1_q2 self [[5]; [-5]]))),
     snd (@rand Tape.torch [9 # 10])).
Proof.
  intros self.
  assert (Hlt : 1 # 4 < fst (@rand Tape.torch [9 # 10])) by reflexivity.
  split; [reflexivity|]. split; [exact Hlt|].
  exact (proj2 (@twin_duel_greedy_action_is_argmax_of_forward Tape.torch self [[5]; [-5]]
                  (1 # 4) [9 # 10] eq_refl Hlt)).
Defined.

(** ** [QNetwork.get_action] *)

(** X8.  When the draw exceeds [explore_rate], the action [QNetwork.get_action]
    returns for a row is an index inside the row of Q-values, the value there
    is the greatest of the row, and every value before it is smaller: ties go
    to the first action. *)
Theorem greedy_action_is_first_maximum `{Torch} (self : QNetwork.t) (state : tensor2)
    (explore_rate : Q) (g : Rng) (i : nat) (q : list Q) :
  explore_rate < fst (rand g) ->
  nth_error (QNetwork.forward self state) i = Some q -> q <> [] ->
  exists a m,
    nth_error (fst (QNetwork.get_action self state explore_rate g)) i = Some a /\
    nth_error q a = Some m /\
    (forall y, In y q -> y <= m) /\
    (forall j y, (j < a)%nat -> nth_error q j = Some y -> y < m).
Proof.
  intros Hlt Hq Hne. unfold QNetwork.get_action.
  destruct (rand g) as [u g1]; simpl in Hlt.
  apply Qltb_lt in Hlt. rewrite Hlt. simpl fst.
  destruct (argmax_row_spec q Hne) as (m & Hm & Hmax & Hfirst).
  exists (argmax_row q), m. split; [|auto].
  unfold argmax_dim1. unfold QNetwork.forward in Hq.
  now apply nth_error_map_some.
Qed.

(** X8 on the example network, which prefers action 1 on every state. *)
Lemma greedy_action_is_first_maximum_witness :
  1 # 4 < fst (@rand Tape.torch [9 # 10]) /\
  nth_error (QNetwork.forward Example.plain [[0]; [0]]) 1 = Some [0; 1] /\
  [0; 1] <> [] /\
  exists a m,
    nth_error (fst (@QNetwork.get_action Tape.torch Example.plain [[0]; [0]] (1 # 4)
                      [9 # 10])) 1 = Some a /\
    nth_error [0; 1] a = Some m /\
    (forall y, In y [0; 1] -> y <= m) /\
    (forall j y, (j < a)%nat -> nth_error [0; 1] j = Some y -> y < m).
Proof.
  assert (Hlt : 1 # 4 < fst (@rand Tape.torch [9 # 10])) by reflexivity.
  assert (Hne : [0; 1] <> []) by discriminate.
  split; [exact Hlt|]. split; [reflexivity|]. split; [exact Hne|].
  exact (@greedy_action_is_first_maximum Tape.torch Example.plain [[0]; [0]] (1 # 4)
           [9 # 10] 1%nat [0; 1] Hlt eq_refl Hne).
Defined.

(** X9.  With [explore_rate >= 1] and a draw below 1, [QNetwork.get_action]
    never takes the greedy branch: the actions are those of [randint] for the
    module's [action_dim] and the number of rows, the same for every network
    and every content of the states.  With [explore_rate = 0] the greedy
    branch is not certain either: a draw of exactly 0 gives random actions. *)
Theorem explore_rate_bounds `{Torch} (self : QNetwork.t) (state : tensor2)
    (explore_rate : Q) (g : Rng) :
  fst (rand g) < 1 ->
  (1 <= explore_rate \/ (explore_rate == 0 /\ fst (rand g) == 0)) ->
  QNetwork.get_action self state explore_rate g
  = randint (QNetBase.action_dim (QNetwork.base self)) (length state) (snd (rand g)).
Proof.
  intros Hu He. unfold QNetwork.get_action.
  destruct (rand g) as [u g1]; simpl in *.
  rewrite state_norm_length.
  destruct (Qltb explore_rate u) eqn:E; [|reflexivity].
  apply Qltb_lt in E. exfalso.
  destruct He as [He | [He Hz]].
  - apply (Qlt_irrefl u). eapply Qlt_trans; [exact Hu|].
    eapply Qle_lt_trans; eassumption.
  - rewrite He, Hz in E. discriminate E.
Qed.

(** X9 for [explore_rate = 1] and the draw [9/10]. *)
Lemma explore_rate_bounds_witness :
  fst (@rand Tape.torch [9 # 10; 1 # 2]) < 1 /\
  (1 <= 1 \/ (1 == 0 /\ fst (@rand Tape.torch [9 # 10; 1 # 2]) == 0)) /\
  @QNetwork.get_action Tape.torch Example.plain [[0]; [0]] 1 [9 # 10; 1 # 2]
  = @randint Tape.torch 2 2 [1 # 2].
Proof.
  assert (Hu : fst (@rand Tape.torch [9 # 10; 1 # 2]) < 1) by reflexivity.
  assert (He : 1 <= 1 \/ (1 == 0 /\ fst (@rand Tape.torch [9 # 10; 1 # 2]) == 0))
    by (left; discriminate).
  split; [exact Hu|]. split; [exact He|].
  exact (@explore_rate_bounds Tape.torch Example.plain [[0]; [0]] 1 [9 # 10; 1 # 2] Hu He).
Defined.

(** ** AgentTD3.py: [Actor] and [CriticTwin] *)



Lemma sum_bounds (row : list Q) (lo hi : Q) :
  Forall (fun x => lo <= x <= hi) row ->
  inject_Z (Z.of_nat (length row)) * lo <= t_sum row <=
  inject_Z (Z.of_nat (length row)) * hi.
Proof.
  induction 1 as [|x row [Hlo Hhi] Hrow IH].
  - simpl. split; discriminate.
  - simpl length. rewrite Nat2Z.inj_succ. unfold Z.succ. rewrite inject_Z_plus.
    change (inject_Z 1) with 1.
    simpl t_sum. destruct IH as [IH1 IH2]. split; nra.
Qed.

Lemma mean_between_min_max (row : list Q) :
  row <> [] -> min_row row <= mean_row row <= max_row row.
Proof.
  intros Hne.
  assert (Hb : Forall (fun x => min_row row <= x <= max_row row) row).
  { apply Forall_forall. intros x Hx. split; [now apply min_row_le | now apply max_row_ge]. }
  destruct (sum_bounds row _ _ Hb) as [Hlo Hhi].
  assert (Hn : 0 < inject_Z (Z.of_nat (length row))).
  { destruct row; [congruence|]. unfold Qlt; simpl. lia. }
  unfold mean_row. split.
  - apply Qle_shift_div_l; [exact Hn|]. now rewrite Qmult_comm.
  - apply Qle_shift_div_r; [exact Hn|]. now rewrite Qmult_comm.
Qed.

(** X11.  The value [CriticTwin.forward] returns for a row lies between the
    smallest and the greatest of the ensemble values it averages, those of
    [get_q_values] on the normalized state; the minimum over the ensemble,
    which the TD3 target uses, is never above that mean. *)
Theorem critic_forward_between_heads (self : CriticTwin.t) (state action : tensor2) (i : nat)
    (values : list Q) :
  nth_error (CriticTwin.get_q_values self
               (ModuleBase.state_norm (CriticTwin.base self) state) action) i
  = Some values ->
  values <> [] ->
  exists value,
    nth_error (CriticTwin.forward self state action) i = Some value /\
    min_row values <= value <= max_row values.
Proof.
  intros Hv Hne. exists (mean_row values). split.
  - rewrite critic_forward_unfold. unfold mean_dim1. now apply nth_error_map_some.
  - now apply mean_between_min_max.
Qed.

(** X11 on the example critic. *)
Lemma critic_forward_between_heads_witness :
  exists values,
    nth_error (CriticTwin.get_q_values Example.critic
                 (ModuleBase.state_norm (CriticTwin.base Example.critic) [[3]]) [[0]]) 0
    = Some values /\
    values <> [] /\
    exists value,
      nth_error (CriticTwin.forward Example.critic [[3]] [[0]]) 0 = Some value /\
      min_row values <= value <= max_row values.
Proof.
  eexists. split; [reflexivity|].
  assert (Hne : [hd 0 ([((3 - 0) / 1 - 0) / 1] ++ [0]); 0] <> []) by discriminate.
  split; [exact Hne|].
  exact (critic_forward_between_heads Example.critic [[3]] [[0]] 0%nat _ eq_refl Hne).
Defined.

(** ** The update methods of [AgentTD3]: every call, every [update_freq] *)

Section TD3Update.
Context `{Torch} `{Training} `{ReplayBuffer}.










End TD3Update.





(** ** The update methods of the DQN family *)

Section DQNUpdate.
Context `{MlpFactory} `{Training} `{ReplayBuffer}.

(** X15.  With a batch size of zero, the two update methods of [AgentDQN]
    raise nothing and return not-a-number for the critic objective and for
    the actor objective. *)
Theorem dqn_empty_batch_objectives_are_nan (self : AgentDQN.t) (buffer : Buffer)
    (update_t : obj) :
  isinstance_int update_t = true ->
  fst (AgentDQN._update_objectives_raw self buffer 0 update_t) = Ok (NaN, NaN) /\
  fst (AgentDQN._update_objectives_per self buffer 0 update_t) = Ok (NaN, NaN).
Proof.
  intros Hint.
  assert (Hq : forall cri batch, length (Batch.state batch) = 0%nat ->
                                 AgentDQN.q_value cri batch = []).
  { intros cri batch Hs. unfold AgentDQN.q_value, col, gather.
    pose proof (call_length cri (Batch.state batch)) as Hl. rewrite Hs in Hl.
    now destruct (QModule.call cri (Batch.state batch)). }
  split.
  - unfold AgentDQN._update_objectives_raw. rewrite Hint.
    pose proof (sample_wf buffer 0) as Hwf.
    destruct (sample buffer 0) as [batch buffer']. simpl in Hwf.
    destruct Hwf as (Hs & _).
    destruct optimizer_backward as [optimizer cri']. simpl.
    unfold AgentDQN.td_error. now rewrite (Hq _ _ Hs).
  - unfold AgentDQN._update_objectives_per. rewrite Hint.
    pose proof (sample_for_per_wf buffer 0) as Hwf.
    destruct (sample_for_per buffer 0) as [per buffer']. simpl in Hwf.
    destruct Hwf as ((Hs & _) & _).
    destruct optimizer_backward as [optimizer cri']. simpl.
    unfold AgentDQN.td_error. now rewrite (Hq _ _ Hs).
Qed.

(** X16.  On an agent whose target module has no [get_q1_q2] (a [QNetwork]
    or a [QNetDuel]), the update methods of [AgentDoubleDQN] raise
    [AttributeError] once the batch is sampled: the agent is unchanged, the
    buffer is as sampling left it and no priority is fed back.  The agents
    the constructors of [AgentDoubleDQN] and [AgentD3QN] build are of this
    kind, since [AgentDQN.__init__] gives them a [QNetwork]. *)
Theorem double_update_needs_twin_module (self : AgentDQN.t) (buffer : Buffer)
    (batch_size : nat) (update_t : obj) :
  isinstance_int update_t = true ->
  QModule.class_of (AgentDQN.cri_target self) = QModule.ClsQNetwork \/
  QModule.class_of (AgentDQN.cri_target self) = QModule.ClsQNetDuel ->
  AgentDoubleDQN._update_objectives_raw self buffer batch_size update_t
  = (Raise (AttributeError "get_q1_q2"), (self, snd (sample buffer batch_size))) /\
  AgentDoubleDQN._update_objectives_per self buffer batch_size update_t
  = (Raise (AttributeError "get_q1_q2"), (self, snd (sample_for_per buffer batch_size))) /\
  forall (v : Variant.t) base net_dims state_dim action_dim args,
    QModule.class_of
      (AgentDQN.cri_target (Variant.init v base net_dims state_dim action_dim args))
    = QModule.ClsQNetwork.
Proof.
  intros Hint Hcls.
  assert (Hq : forall batch, AgentDoubleDQN.q_label self batch
                             = Raise (AttributeError "get_q1_q2")).
  { intros batch. unfold AgentDoubleDQN.q_label, AgentDoubleDQN.next_q.
    destruct (AgentDQN.cri_target self); simpl in *;
      destruct Hcls; try discriminate; reflexivity. }
  split; [|split].
  - unfold AgentDoubleDQN._update_objectives_raw. rewrite Hint.
    destruct (sample buffer batch_size) as [batch buffer']. now rewrite Hq.
  - unfold AgentDoubleDQN._update_objectives_per. rewrite Hint.
    destruct (sample_for_per buffer batch_size) as [per buffer']. now rewrite Hq.
  - intros v; destruct v; reflexivity.
Qed.

(** X17.  When the two heads of a [QNetTwin] target module are the same
    network, the target of [AgentDoubleDQN] is the target [AgentDQN] computes
    from that module: the minimum of two equal estimates changes nothing. *)
Theorem double_target_with_equal_heads (self : AgentDQN.t) (m : QNetTwin.t) (batch : Batch.t) :
  AgentDQN.cri_target self = QModule.Twin m ->
  QNetTwin.net_val1 m = QNetTwin.net_val2 m ->
  AgentDoubleDQN.next_q self batch = Ok (AgentDQN.next_q self batch) /\
  AgentDoubleDQN.q_label self batch = Ok (AgentDQN.q_label self batch).
Proof.
  intros Hm Heq.
  assert (Hmin : forall q : tensor2, t2_min q q = q).
  { unfold t2_min. induction q as [|row q IH]; simpl; [reflexivity|].
    rewrite IH. f_equal. induction row as [|x row IHrow]; simpl; [reflexivity|].
    rewrite IHrow. f_equal. destruct (Qmin_cases x x); assumption. }
  assert (Hn : AgentDoubleDQN.next_q self batch = Ok (AgentDQN.next_q self batch)).
  { unfold AgentDoubleDQN.next_q, AgentDQN.next_q. rewrite Hm. simpl.
    unfold QNetTwin.get_q1_q2, QNetTwin.forward. rewrite <- Heq. now rewrite Hmin. }
  split; [exact Hn|].
  unfold AgentDoubleDQN.q_label, AgentDQN.q_label. now rewrite Hn.
Qed.

End DQNUpdate.

(** X15 for [update_t = 0]. *)
Lemma dqn_empty_batch_objectives_are_nan_witness :
  isinstance_int (Int 0) = true /\
  fst (@AgentDQN._update_objectives_raw Tape.training Tape.buffer
         Example.double_agent Example.stored 0 (Int 0)) = Ok (NaN, NaN).
Proof.
  split; [reflexivity|].
  exact (proj1 (@dqn_empty_batch_objectives_are_nan Tape.training Tape.buffer
                  Example.double_agent Example.stored (Int 0) eq_refl)).
Defined.

(** X16 on the agent the constructor of [AgentD3QN] builds. *)
Lemma double_update_needs_twin_module_witness :
  let self :=
    @Variant.init Tape.factory Tape.training Variant.D3QN Example.base [8%nat] 1 2
      Example.config in
  isinstance_int (Int 3) = true /\
  (QModule.class_of (AgentDQN.cri_target self) = QModule.ClsQNetwork \/
   QModule.class_of (AgentDQN.cri_target self) = QModule.ClsQNetDuel) /\
  @AgentDoubleDQN._update_objectives_raw Tape.training Tape.buffer self Example.stored 4 (Int 3)
  = (Raise (AttributeError "get_q1_q2"),
     (self, snd (@sample Tape.buffer Example.stored 4))).
Proof.
  intros self.
  assert (Hcls : QModule.class_of (AgentDQN.cri_target self) = QModule.ClsQNetwork \/
                 QModule.class_of (AgentDQN.cri_target self) = QModule.ClsQNetDuel)
    by (left; reflexivity).
  split; [reflexivity|]. split; [exact Hcls|].
  exact (proj1 (@double_update_needs_twin_module Tape.factory Tape.training Tape.buffer
                  self Example.stored 4%nat (Int 3) eq_refl Hcls)).
Defined.

(** X17 on a module whose two heads are one network. *)
Lemma double_target_with_equal_heads_witness :
  let m :=
    {| QNetTwin.base := QNetBase.init 1 2;
       QNetTwin.net_state := fun x => x;
       QNetTwin.net_val1 := fun x => [hd 0 x; 1];
       QNetTwin.net_val2 := fun x => [hd 0 x; 1] |} in
  let self :=
    {| AgentDQN.base := Example.base;
       AgentDQN.act_class := Some QModule.ClsQNetTwin;
       AgentDQN.cri_class := Some None;
       AgentDQN.cri := QModule.Twin m;
       AgentDQN.cri_target := QModule.Twin m;
       AgentDQN.cri_optimizer := @Adam Tape.training (1 # 1000);
       AgentDQN.explore_rate := 1 # 4 |} in
  AgentDQN.cri_target self = QModule.Twin m /\
  QNetTwin.net_val1 m = QNetTwin.net_val2 m /\
  AgentDoubleDQN.q_label self Example.batch = Ok (AgentDQN.q_label self Example.batch).
Proof.
  intros m self.
  split; [reflexivity|]. split; [reflexivity|].
  exact (proj2 (@double_target_with_equal_heads Tape.training self m Example.batch
                  eq_refl eq_refl)).
Defined.

(** ** Masked rows *)

(** Two targets agree wherever the mask is not zero. *)
Definition agree_where_unmasked (unmask label label' : tensor1) : Prop :=
  length label = length label' /\
  forall i l l' m,
    nth_error label i = Some l -> nth_error label' i = Some l' ->
    nth_error unmask i = Some m -> ~ m == 0 -> l = l'.

Lemma masked_rows_equal (a a' u : tensor1) :
  length a = length a' ->
  (forall i x x' m,
     nth_error a i = Some x -> nth_error a' i = Some x' ->
     nth_error u i = Some m -> ~ m == 0 -> x = x') ->
  Forall2 Qeq (t1_mul a u) (t1_mul a' u).
Proof.
  unfold t1_mul. revert a' u; induction a as [|x a IH]; intros [|x' a'] [|m u]; simpl;
    try discriminate; intros Hl Hag; constructor.
  - destruct (Qeq_dec m 0) as [Hz | Hnz].
    + rewrite Hz. ring.
    + now rewrite (Hag 0%nat x x' m eq_refl eq_refl eq_refl Hnz).
  - apply IH; [lia|]. intros i y y' k Hy Hy' Hk. exact (Hag (S i) y y' k Hy Hy' Hk).
Qed.

Lemma criterion_rows_agree (f : Q -> Q -> Q) (v label label' : tensor1) (i : nat) (x x' : Q) :
  nth_error (map2 f v label) i = Some x -> nth_error (map2 f v label') i = Some x' ->
  exists l l', nth_error label i = Some l /\ nth_error label' i = Some l' /\
               (l = l' -> x = x').
Proof.
  intros Hx Hx'.
  apply nth_error_map2_inv in Hx as (a & l & Ha & Hl & ->).
  apply nth_error_map2_inv in Hx' as (a' & l' & Ha' & Hl' & ->).
  exists l, l'. repeat split; try assumption. intros ->. congruence.
Qed.

(** X18.  The error per sample of an update does not depend on the target of
    a row whose [unmask] is zero: two targets that agree on the other rows
    give the same errors (zero on the masked rows), in [AgentDQN], in
    [AgentDoubleDQN] and in the prioritized update of [AgentTD3]. *)
Theorem masked_targets_do_not_count `{Training} (batch : Batch.t) (label label' : tensor1) :
  agree_where_unmasked (Batch.unmask batch) label label' ->
  (forall (self : AgentDQN.t) (cri : QModule.t),
     Forall2 Qeq (AgentDQN.td_error self cri batch label)
                 (AgentDQN.td_error self cri batch label')) /\
  (forall (self : AgentDQN.t) (q_value1 q_value2 : tensor1),
     Forall2 Qeq (AgentDoubleDQN.td_error self q_value1 q_value2 batch label)
                 (AgentDoubleDQN.td_error self q_value1 q_value2 batch label')) /\
  (forall (self : AgentTD3.t) (cri : CriticTwin.t),
     Forall2 Qeq (AgentTD3.td_error self cri batch label)
                 (AgentTD3.td_error self cri batch label')).
Proof.
  intros [Hlen Hag]. split; [|split].
  - intros self cri. unfold AgentDQN.td_error.
    apply masked_rows_equal; [rewrite !length_map2; lia|].
    intros i x x' m Hx Hx' Hm Hnz.
    destruct (criterion_rows_agree _ _ _ _ i x x' Hx Hx') as (l & l' & Hl & Hl' & Himp).
    apply Himp. exact (Hag i l l' m Hl Hl' Hm Hnz).
  - intros self v1 v2. unfold AgentDoubleDQN.td_error.
    apply masked_rows_equal; [unfold t1_add; rewrite !length_map2; lia|].
    intros i x x' m Hx Hx' Hm Hnz. unfold t1_add in Hx, Hx'.
    apply nth_error_map2_inv in Hx as (a & b & Ha & Hb & ->).
    apply nth_error_map2_inv in Hx' as (a' & b' & Ha' & Hb' & ->).
    destruct (criterion_rows_agree _ _ _ _ i a a' Ha Ha') as (l & l' & Hl & Hl' & Himp).
    destruct (criterion_rows_agree _ _ _ _ i b b' Hb Hb') as (k & k' & Hk & Hk' & Himp').
    assert (El : l = l') by exact (Hag i l l' m Hl Hl' Hm Hnz).
    assert (Ek : k = k') by exact (Hag i k k' m Hk Hk' Hm Hnz).
    now rewrite (Himp El), (Himp' Ek).
  - intros self cri. unfold AgentTD3.td_error, AgentTD3.losses.
    set (q_values := CriticTwin.get_q_values cri (Batch.state batch) (Batch.action batch)).
    apply masked_rows_equal.
    + unfold mean_dim1, repeat_cols. rewrite !length_map, !length_map2, !length_map. lia.
    + intros i x x' m Hx Hx' Hm Hnz. unfold mean_dim1, repeat_cols in Hx, Hx'.
      rewrite nth_error_map in Hx, Hx'.
      destruct (nth_error (map2 _ q_values (map _ label)) i) as [row|] eqn:Er;
        [|discriminate].
      destruct (nth_error (map2 _ q_values (map _ label')) i) as [row'|] eqn:Er';
        [|discriminate].
      simpl in Hx, Hx'. injection Hx as <-. injection Hx' as <-.
      apply nth_error_map2_inv in Er as (qr & lr & Hq & Hlr & ->).
      apply nth_error_map2_inv in Er' as (qr' & lr' & Hq' & Hlr' & ->).
      rewrite nth_error_map in Hlr, Hlr'.
      destruct (nth_error label i) as [l|] eqn:El; [|discriminate].
      destruct (nth_error label' i) as [l'|] eqn:El'; [|discriminate].
      simpl in Hlr, Hlr'. injection Hlr as <-. injection Hlr' as <-.
      rewrite (Hag i l l' m El El' Hm Hnz). congruence.
Qed.

(** X18 on the example batch with the mask [[0; 1]]: the targets [[5; 2]] and
    [[7; 2]] differ on the masked row only. *)
Lemma masked_targets_do_not_count_witness :
  let batch :=
    {| Batch.state := [[1]; [2]]; Batch.action := [[0]; [1]]; Batch.reward := [1; 2];
       Batch.undone := [0; 1]; Batch.unmask := [0; 1]; Batch.next_state := [[2]; [3]] |} in
  agree_where_unmasked (Batch.unmask batch) [5; 2] [7; 2] /\
  Forall2 Qeq
    (AgentDQN.td_error (@Example.double_agent Tape.training) (QModule.Plain Example.plain)
       batch [5; 2])
    (AgentDQN.td_error (@Example.double_agent Tape.training) (QModule.Plain Example.plain)
       batch [7; 2]).
Proof.
  intros batch.
  assert (Hag : agree_where_unmasked (Batch.unmask batch) [5; 2] [7; 2]).
  { split; [reflexivity|]. intros [|[|i]] l l' m Hl Hl' Hm Hnz; simpl in *.
    - injection Hm as <-. exfalso. apply Hnz. reflexivity.
    - congruence.
    - destruct i; discriminate. }
  split; [exact Hag|].
  exact (proj1 (@masked_targets_do_not_count Tape.training batch [5; 2] [7; 2] Hag)
           Example.double_agent (QModule.Plain Example.plain)).
Defined.

(** ** What the update of [AgentTD3] never reads *)

Section TD3Frame.
Context `{Torch} `{Training} `{ReplayBuffer}.

(** [self] with another target actor and another [explore_noise_std]. *)
Definition with_actor_target (self : AgentTD3.t) (target : Actor.t) (noise : Q) : AgentTD3.t :=
  {| AgentTD3.base := AgentTD3.base self;
     AgentTD3.update_freq := AgentTD3.update_freq self;
     AgentTD3.num_ensembles := AgentTD3.num_ensembles self;
     AgentTD3.policy_noise_std := AgentTD3.policy_noise_std self;
     AgentTD3.explore_noise_std := noise;
     AgentTD3.act := AgentTD3.act self;
     AgentTD3.cri := AgentTD3.cri self;
     AgentTD3.act_target := target;
     AgentTD3.cri_target := AgentTD3.cri_target self;
     AgentTD3.act_optimizer := AgentTD3.act_optimizer self;
     AgentTD3.cri_optimizer := AgentTD3.cri_optimizer self |}.

(** The parts of the agent that an update reads. *)
Definition same_but_actor_target (a b : AgentTD3.t) : Prop :=
  AgentTD3.base a = AgentTD3.base b /\
  AgentTD3.update_freq a = AgentTD3.update_freq b /\
  AgentTD3.policy_noise_std a = AgentTD3.policy_noise_std b /\
  AgentTD3.act a = AgentTD3.act b /\
  AgentTD3.cri a = AgentTD3.cri b /\
  AgentTD3.cri_target a = AgentTD3.cri_target b /\
  AgentTD3.act_optimizer a = AgentTD3.act_optimizer b /\
  AgentTD3.cri_optimizer a = AgentTD3.cri_optimizer b.

Lemma delayed_actor_update_frame (self : AgentTD3.t) (target : Actor.t) (noise : Q)
    (batch : Batch.t) (update_t : obj) :
  fst (AgentTD3.delayed_actor_update (with_actor_target self target noise) batch update_t)
  = fst (AgentTD3.delayed_actor_update self batch update_t) /\
  same_but_actor_target
    (snd (AgentTD3.delayed_actor_update (with_actor_target self target noise) batch update_t))
    (snd (AgentTD3.delayed_actor_update self batch update_t)).
Proof.
  unfold AgentTD3.delayed_actor_update. simpl.
  destruct (mod_ (int_value update_t) (AgentTD3.update_freq self)) as [r | e].
  - destruct (r =? 0)%Z.
    + destruct optimizer_backward as [optimizer act']. simpl. repeat split.
    + simpl. repeat split.
  - simpl. repeat split.
Qed.

(** X19.  The update methods of [AgentTD3] never read the target of the
    actor nor the agent's [explore_noise_std]: with another target actor and
    another noise setting, a call returns the same objectives, leaves the
    same buffer and random source, and the same actor, critic, critic target
    and optimizers.  The action of the target is drawn from the actor
    itself, and the target of the actor is only written. *)
Theorem update_never_reads_actor_target (update : Loop.method) (self : AgentTD3.t)
    (target : Actor.t) (noise : Q) (buffer : Buffer) (g : Rng) (batch_size : nat)
    (update_t : obj) :
  Loop.is_update_method update ->
  let r := update self buffer g batch_size update_t in
  let r' := update (with_actor_target self target noise) buffer g batch_size update_t in
  fst r' = fst r /\
  snd (fst (snd r')) = snd (fst (snd r)) /\
  snd (snd r') = snd (snd r) /\
  same_but_actor_target (fst (fst (snd r'))) (fst (fst (snd r))).
Proof.
  intros [-> | ->] r r'; unfold r, r'.
  - unfold AgentTD3._update_objectives_raw.
    destruct (isinstance_int update_t); [|simpl; repeat split].
    destruct (sample buffer batch_size) as [batch buffer']. simpl AgentTD3.act.
    simpl AgentTD3.policy_noise_std.
    destruct (Actor.get_action (AgentTD3.act self) (Batch.next_state batch)
                (AgentTD3.policy_noise_std self) g) as [next_action g'].
    change (AgentTD3.q_label (with_actor_target self target noise) batch next_action)
      with (AgentTD3.q_label self batch next_action).
    set (label := AgentTD3.q_label self batch next_action).
    change (AgentTD3.obj_critic_raw (with_actor_target self target noise) batch label)
      with (AgentTD3.obj_critic_raw self batch label).
    simpl AgentTD3.cri_optimizer. simpl AgentTD3.cri.
    destruct (optimizer_backward (AgentTD3.cri_optimizer self) (AgentTD3.cri self)
                (AgentTD3.obj_critic_raw self batch label)) as [optimizer cri'].
    simpl AgentTD3.cri_target. simpl AgentTD3.base.
    set (cri_target := soft_update (AgentTD3.cri_target self) cri'
                         (AgentBase.soft_update_tau (AgentTD3.base self))).
    change (AgentTD3.with_critic (with_actor_target self target noise) cri' cri_target
              optimizer)
      with (with_actor_target (AgentTD3.with_critic self cri' cri_target optimizer)
              target noise).
    destruct (delayed_actor_update_frame
                (AgentTD3.with_critic self cri' cri_target optimizer) target noise batch
                update_t) as [Hf Hs].
    destruct (AgentTD3.delayed_actor_update
                (with_actor_target (AgentTD3.with_critic self cri' cri_target optimizer)
                   target noise) batch update_t) as [ra sa].
    destruct (AgentTD3.delayed_actor_update
                (AgentTD3.with_critic self cri' cri_target optimizer) batch update_t)
      as [rb sb].
    simpl in Hf, Hs. subst rb. destruct ra; simpl; repeat split; apply Hs.
  - unfold AgentTD3._update_objectives_per.
    destruct (isinstance_int update_t); [|simpl; repeat split].
    destruct (sample_for_per buffer batch_size) as [per buffer']. simpl AgentTD3.act.
    simpl AgentTD3.policy_noise_std.
    set (batch := PerBatch.batch per).
    destruct (Actor.get_action (AgentTD3.act self) (Batch.next_state batch)
                (AgentTD3.policy_noise_std self) g) as [next_action g'].
    change (AgentTD3.q_label (with_actor_target self target noise) batch next_action)
      with (AgentTD3.q_label self batch next_action).
    set (label := AgentTD3.q_label self batch next_action).
    change (AgentTD3.obj_critic_per (with_actor_target self target noise) batch label)
      with (AgentTD3.obj_critic_per self batch label).
    change (AgentTD3.td_error (with_actor_target self target noise))
      with (AgentTD3.td_error self).
    simpl AgentTD3.cri_optimizer. simpl AgentTD3.cri.
    destruct (optimizer_backward (AgentTD3.cri_optimizer self) (AgentTD3.cri self)
                (AgentTD3.obj_critic_per self batch label (PerBatch.is_weight per)))
      as [optimizer cri'].
    simpl AgentTD3.cri_target. simpl AgentTD3.base.
    set (cri_target := soft_update (AgentTD3.cri_target self) cri'
                         (AgentBase.soft_update_tau (AgentTD3.base self))).
    change (AgentTD3.with_critic (with_actor_target self target noise) cri' cri_target
              optimizer)
      with (with_actor_target (AgentTD3.with_critic self cri' cri_target optimizer)
              target noise).
    destruct (delayed_actor_update_frame
                (AgentTD3.with_critic self cri' cri_target optimizer) target noise batch
                update_t) as [Hf Hs].
    destruct (AgentTD3.delayed_actor_update
                (with_actor_target (AgentTD3.with_critic self cri' cri_target optimizer)
                   target noise) batch update_t) as [ra sa].
    destruct (AgentTD3.delayed_actor_update
                (AgentTD3.with_critic self cri' cri_target optimizer) batch update_t)
      as [rb sb].
    simpl in Hf, Hs. subst rb. destruct ra; simpl; repeat split; apply Hs.
Qed.

End TD3Frame.

(** X19 on the example agent, with the zero actor as target. *)
Lemma update_never_reads_actor_target_witness :
  let update := @AgentTD3._update_objectives_raw Tape.torch Tape.training Tape.buffer in
  let self := @Example.td3_agent Tape.training in
  let other :=
    {| Actor.base := ModuleBase.init 1 1; Actor.net := fun _ => [0];
       Actor.explore_noise_std := 1 # 2 |} in
  @Loop.is_update_method Tape.torch Tape.training Tape.buffer update /\
  fst (update (@with_actor_target Tape.training self other 1) Example.stored [] 3%nat (Int 4))
  = fst (update self Example.stored [] 3%nat (Int 4)).
Proof.
  intros update self other.
  assert (Hm : @Loop.is_update_method Tape.torch Tape.training Tape.buffer update)
    by (left; reflexivity).
  split; [exact Hm|].
  exact (proj1 (@update_never_reads_actor_target Tape.torch Tape.training Tape.buffer
                  update self other 1 Example.stored [] 3%nat (Int 4) Hm)).
Defined.
